(** * Console support agent: routing, tool gates and the session loop

    A shallow embedding of [src/main.py].  The program is a console chatbot:
    one triage call classifies the prompt, the normalised answer selects one
    of three responders, and two tools are offered to the responders behind
    predicates over the user context.

    The inference backend ([Runner.run] of the [agents] package), the reading
    of the [.env] file and the console are external: they appear below as
    section variables and as a script of console inputs. *)

From Stdlib Require Import Ascii String NArith ZArith Bool List Lia.
From stdpp Require Import base option gmap strings.
Import ListNotations.

Local Open Scope string_scope.

(** ** Python strings

    A [str] is modelled as a Rocq [string] whose characters are the code
    points U+0000 to U+00FF.  On that range [str.isspace] and [str.lower] are
    the two tables below.  Literals of the source that hold characters
    outside the range are written in their UTF-8 encoding; they are only ever
    printed, never normalised. *)

Module PyStr.

Definition code (c : ascii) : N := N_of_ascii c.

Definition between (lo hi n : N) : bool := (lo <=? n)%N && (n <=? hi)%N.

(** [str.isspace] on one character: TAB, LF, VT, FF, CR, the four
    separators FS GS RS US, SPACE, NEL and NO-BREAK SPACE. *)
Definition isspace (c : ascii) : bool :=
  let n := code c in
  between 9 13 n || between 28 32 n || (n =? 133)%N || (n =? 160)%N.

(** [str.lower] on one character: [A-Z] and the Latin-1 capitals
    U+00C0..U+00DE (the multiplication sign U+00D7 apart) move up by 32;
    everything else is left alone. *)
Definition lower_char (c : ascii) : ascii :=
  let n := code c in
  if between 65 90 n || (between 192 222 n && negb (n =? 215)%N)
  then ascii_of_N (n + 32)
  else c.

Fixpoint lower (s : string) : string :=
  match s with
  | EmptyString => EmptyString
  | String c s' => String (lower_char c) (lower s')
  end.

Fixpoint lstrip (s : string) : string :=
  match s with
  | EmptyString => EmptyString
  | String c s' => if isspace c then lstrip s' else s
  end.

Fixpoint rstrip (s : string) : string :=
  match s with
  | EmptyString => EmptyString
  | String c s' =>
      match rstrip s' with
      | EmptyString => if isspace c then EmptyString else String c EmptyString
      | r => String c r
      end
  end.

(** [str.strip()] with no argument: the leading run of whitespace is
    skipped, then the trailing one. *)
Definition strip (s : string) : string := rstrip (lstrip s).

(** [not s] for a [str]: the empty string is the only falsy one. *)
Definition is_empty (s : string) : bool :=
  match s with EmptyString => true | _ => false end.

Fixpoint all_space (s : string) : bool :=
  match s with
  | EmptyString => true
  | String c s' => isspace c && all_space s'
  end.

(** What [lstrip] returns: empty, or starting with a non-space. *)
Definition starts_solid (s : string) : Prop :=
  match s with
  | EmptyString => True
  | String c _ => isspace c = false
  end.

(** The line feed, written [\n] in the source. *)
Definition LF : string := String (ascii_of_N 10) EmptyString.

End PyStr.

(** ** Normalisation of the triage output ([handle_query], line 108) *)

Definition normalize (final_output : string) : string :=
  PyStr.lower (PyStr.strip final_output).

(** ** Python values and attribute lookup

    The gates read their argument with [getattr], which works on any object
    and falls back to a default when the attribute is missing.  An object is
    therefore a finite map from attribute names to values. *)

Inductive pyval : Type :=
| VNone
| VBool (b : bool)
| VInt (z : Z)
| VStr (s : string).

Abbreviation PyObj := (gmap string pyval).

(** [bool(v)] *)
Definition truthy (v : pyval) : bool :=
  match v with
  | VNone => false
  | VBool b => b
  | VInt z => negb (z =? 0)%Z
  | VStr s => negb (PyStr.is_empty s)
  end.

(** [v == s] for a [str] literal [s]: only an equal [str] compares equal. *)
Definition eq_str (v : pyval) (s : string) : bool :=
  match v with
  | VStr t => String.eqb t s
  | _ => false
  end.

(** [getattr(o, name, default)] *)
Definition getattr (o : PyObj) (name : string) (default : pyval) : pyval :=
  match o !! name with
  | Some v => v
  | None => default
  end.

Definition of_optional (o : option string) : pyval :=
  match o with
  | Some s => VStr s
  | None => VNone
  end.

(** ** [UserContext] (lines 9-12) *)

Record UserContext : Type := {
  name : option string;
  is_premium_user : bool;
  issue_type : option string
}.

(** [UserContext(name=..., is_premium_user=...)]: [issue_type] takes its
    default, [None]. *)
Definition new_UserContext (name : option string) (is_premium_user : bool)
  : UserContext :=
  {| name := name; is_premium_user := is_premium_user; issue_type := None |}.

(** [context.issue_type = v] *)
Definition with_issue_type (c : UserContext) (v : string) : UserContext :=
  {| name := name c; is_premium_user := is_premium_user c;
     issue_type := Some v |}.

(** The attributes of a [UserContext] instance, as [getattr] sees them. *)
Definition attrs (c : UserContext) : PyObj :=
  <["name" := of_optional (name c)]>
    (<["is_premium_user" := VBool (is_premium_user c)]>
      (<["issue_type" := of_optional (issue_type c)]> ∅)).

(** ** Function tools and their gates (lines 42-58) *)

Inductive ToolId : Type := refund_tool | restart_service_tool.

(** [context.name or 'user'] *)
Definition name_or_user (c : UserContext) : string :=
  match name c with
  | Some n => if PyStr.is_empty n then "user" else n
  | None => "user"
  end.

Definition refund_tool_call (context : UserContext) : string :=
  "✅ Refund processed for " ++ name_or_user context ++ ".".

Definition restart_service_tool_call (context : UserContext) : string :=
  "🔄 Service restarted successfully.".

(** [lambda tool, context: getattr(context, "is_premium_user", False)] *)
Definition refund_tool_is_enabled {T} (tool : T) (context : PyObj) : pyval :=
  getattr context "is_premium_user" (VBool false).

(** [lambda tool, context: getattr(context, "issue_type", None) == "technical"] *)
Definition restart_service_tool_is_enabled {T} (tool : T) (context : PyObj)
  : pyval :=
  VBool (eq_str (getattr context "issue_type" VNone) "technical").

Definition is_enabled (t : ToolId) : ToolId -> PyObj -> pyval :=
  match t with
  | refund_tool => refund_tool_is_enabled
  | restart_service_tool => restart_service_tool_is_enabled
  end.

(** ** Agents (lines 62-97).  The instruction texts play no part in the
    local control flow and are left out. *)

Inductive AgentId : Type :=
| triage_agent
| billing_agent
| tech_agent
| general_agent.

Definition agent_name (a : AgentId) : string :=
  match a with
  | triage_agent => "Triage Bot"
  | billing_agent => "Billing Bot"
  | tech_agent => "Tech Support Bot"
  | general_agent => "General Bot"
  end.

Definition tools (a : AgentId) : list ToolId :=
  match a with
  | triage_agent => []
  | billing_agent => [refund_tool]
  | tech_agent => [restart_service_tool]
  | general_agent => []
  end.

(** Modelled from the spec: the step of [Runner.run] that decides which
    tools the model may call lives in the [agents] package, which is not
    under src/.  Section 4.2 of the specification gives it as "the result of
    evaluating every Action Gate in tools against context", a tool being
    offered when its gate answers a true value. *)
Definition offered_tools (a : AgentId) (c : UserContext) : list ToolId :=
  List.filter (fun t => truthy (is_enabled t t (attrs c))) (tools a).

(** ** Exceptions

    [except Exception] catches the instances of [Exception] only;
    [KeyboardInterrupt], [SystemExit] and [asyncio.CancelledError] derive
    from [BaseException] directly. *)

Inductive exn : Type :=
| KeyboardInterrupt
| SystemExit (msg : string)
| CancelledError
| Exception (cls msg : string).

(** [str(e)]: the message an exception was built with. *)
Definition str_exn (e : exn) : string :=
  match e with
  | KeyboardInterrupt => ""
  | SystemExit msg => msg
  | CancelledError => ""
  | Exception _ msg => msg
  end.

Definition isinstance_Exception (e : exn) : bool :=
  match e with
  | Exception _ _ => true
  | _ => false
  end.

(** ** What an observer of the process sees *)

Inductive Event : Type :=
| EvInput (prompt : string)
| EvPrint (text : string)
| EvRun (agent : AgentId) (prompt : string) (context : UserContext)
        (offered : list ToolId)
| EvSetAttr (field : string) (value : pyval).

Record RunResult : Type := { final_output : string }.

Inductive Control : Type := Continue | Break | Propagate (e : exn).

(** How far a session got on a finite script of console inputs: still
    blocked in [input], returned from [run_loop], or left by an exception. *)
Inductive Outcome : Type := AwaitingInput | Returned | Raised (e : exn).

Definition greeting : string :=
  "AI Bot:👋 Hello! I am a console based support agent created by Muhammad Omer.".

Definition farewell : string :=
  PyStr.LF ++ "AI Bot:👋 Exiting. Thank you for using the bot!".

Definition input_prompt : string := PyStr.LF ++ "Prompt: ".

Definition error_line (e : exn) : string := "⚠️ Error: " ++ str_exn e.

Definition answer_line (r : RunResult) : string :=
  PyStr.LF ++ "AI Bot:" ++ " " ++ final_output r.

(** ** The program

    [World] is whatever the inference backend depends on and changes;
    [Runner_run] is one call of [Runner.run(agent, prompt, run_config=config,
    context=context)], which yields the final output or raises.  The backend
    gets the context and the tools offered for the call; it has no way to
    assign to the context. *)

Section Program.

Context {World : Type}.
Variable Runner_run :
  AgentId -> string -> UserContext -> list ToolId -> World ->
  (exn + string) * World.

(** [load_dotenv()]: the process environment after the [.env] file, if any,
    was merged into it. *)
Variable load_dotenv : gmap string string -> gmap string string.

(** The one [UserContext] object of a session is shared by reference between
    the loop, the router and the backend calls: it is a cell of the state. *)
Record State : Type := {
  st_context : UserContext;
  st_world : World;
  st_log : list Event
}.

Definition M (A : Type) : Type := State -> (exn + A) * State.

Definition ret {A} (a : A) : M A := fun st => (inr a, st).

Definition raise {A} (e : exn) : M A := fun st => (inl e, st).

Definition bind {A B} (m : M A) (k : A -> M B) : M B :=
  fun st =>
    match m st with
    | (inr a, st') => k a st'
    | (inl e, st') => (inl e, st')
    end.

Notation "'let*' x ':=' m 'in' k" := (bind m (fun x => k))
  (at level 10, x pattern, m at level 100, k at level 200).

Definition emit (e : Event) : M unit :=
  fun st =>
    (inr tt,
     {| st_context := st_context st; st_world := st_world st;
        st_log := st_log st ++ [e] |}).

Definition print (text : string) : M unit := emit (EvPrint text).

(** [input(prompt)]: the prompt is shown, then the console answers with a
    line or with an exception ([KeyboardInterrupt], [EOFError]). *)
Definition input (prompt : string) (console : exn + string) : M string :=
  let* _ := emit (EvInput prompt) in
  match console with
  | inr line => ret line
  | inl e => raise e
  end.

(** [context.issue_type = category] on the shared object. *)
Definition set_issue_type (category : string) : M unit :=
  fun st =>
    (inr tt,
     {| st_context := with_issue_type (st_context st) category;
        st_world := st_world st;
        st_log := st_log st ++ [EvSetAttr "issue_type" (VStr category)] |}).

(** [await Runner.run(agent, prompt, run_config=config, context=context)] *)
Definition run (agent : AgentId) (prompt : string) : M RunResult :=
  fun st =>
    let context := st_context st in
    let offered := offered_tools agent context in
    let '(r, w) := Runner_run agent prompt context offered (st_world st) in
    (match r with
     | inr out => inr {| final_output := out |}
     | inl e => inl e
     end,
     {| st_context := context; st_world := w;
        st_log := st_log st ++ [EvRun agent prompt context offered] |}).

(** [handle_query] (lines 100-133) *)
Definition handle_query (prompt : string) : M RunResult :=
  let* triage_result := run triage_agent prompt in
  let category := PyStr.lower (PyStr.strip (final_output triage_result)) in
  let* _ := set_issue_type category in
  if String.eqb category "billing" then run billing_agent prompt
  else if String.eqb category "technical" then run tech_agent prompt
  else run general_agent prompt.

(** The body of the [try] (lines 143-148); [continue] leaves it early. *)
Definition try_body (console : exn + string) : M unit :=
  let* line := input input_prompt console in
  let prompt := PyStr.strip line in
  if PyStr.is_empty prompt then ret tt
  else
    let* result := handle_query prompt in
    print (answer_line result).

(** One turn of [while True] with its two handlers (lines 142-155). *)
Definition loop_body (console : exn + string) (st : State) : Control * State :=
  match try_body console st with
  | (inr _, st') => (Continue, st')
  | (inl KeyboardInterrupt, st') => (Break, snd (print farewell st'))
  | (inl (Exception cls msg), st') =>
      (Continue, snd (print (error_line (Exception cls msg)) st'))
  | (inl e, st') => (Propagate e, st')
  end.

(** [while True], driven by the lines the console delivers. *)
Fixpoint while_true (script : list (exn + string)) (st : State)
  : Outcome * State :=
  match script with
  | [] => (AwaitingInput, st)
  | console :: rest =>
      match loop_body console st with
      | (Continue, st') => while_true rest st'
      | (Break, st') => (Returned, st')
      | (Propagate e, st') => (Raised e, st')
      end
  end.

Definition initial_state (w : World) : State :=
  {| st_context := new_UserContext (Some "Omer") true;
     st_world := w; st_log := [] |}.

(** [run_loop] (lines 137-155) *)
Definition run_loop (script : list (exn + string)) (w : World)
  : Outcome * State :=
  let st := initial_state w in
  while_true script (snd (print greeting st)).

(** [os.getenv(key)] *)
Definition os_getenv (environ : gmap string string) (key : string)
  : option string :=
  environ !! key.

(** Lines 16-23: the key is read after [load_dotenv()]; [not key] holds for
    [None] and for the empty string. *)
Definition configure (environ : gmap string string) : exn + string :=
  let gemini_api_key := os_getenv (load_dotenv environ) "GEMINI_API_KEY" in
  match gemini_api_key with
  | None => inl (Exception "ValueError" "GEMINI_API_KEY is not set.")
  | Some key =>
      if PyStr.is_empty key
      then inl (Exception "ValueError" "GEMINI_API_KEY is not set.")
      else inr key
  end.

(** The module run as a script: configuration, then
    [asyncio.run(run_loop())].  The result is how the process went and
    everything it did on the console and the backend. *)
Definition main (environ : gmap string string) (script : list (exn + string))
  (w : World) : Outcome * list Event :=
  match configure environ with
  | inl e => (Raised e, [])
  | inr _ => let '(o, st) := run_loop script w in (o, st_log st)
  end.

End Program.

Arguments State : clear implicits.

(** ** Concrete backends, used to run the definitions on examples *)

Module Sample.

(** A backend that gives one fixed answer to every triage call and another
    to every responder call; its state counts the calls made. *)
Definition backend (triage responder : exn + string)
  : AgentId -> string -> UserContext -> list ToolId -> nat ->
    (exn + string) * nat :=
  fun agent _ _ _ calls =>
    (match agent with
     | triage_agent => triage
     | _ => responder
     end, S calls).

(** No [.env] file: the environment is left as it is. *)
Definition no_dotenv (environ : gmap string string) : gmap string string :=
  environ.

Definition free_user : UserContext := new_UserContext (Some "Ann") false.

Definition premium_user : UserContext := new_UserContext (Some "Omer") true.

Definition start (c : UserContext) : State nat :=
  {| st_context := c; st_world := 0; st_log := [] |}.

End Sample.

(** ** Vocabulary of the properties *)

(** The [if]/[elif]/[else] chain of [handle_query], as a function of the
    category. *)
Definition branch_of (category : string) : AgentId :=
  if String.eqb category "billing" then billing_agent
  else if String.eqb category "technical" then tech_agent
  else general_agent.

Definition result_of (r : exn + string) : exn + RunResult :=
  match r with
  | inr out => inr {| final_output := out |}
  | inl e => inl e
  end.

Definition is_responder_run (e : Event) : bool :=
  match e with
  | EvRun triage_agent _ _ _ => false
  | EvRun _ _ _ _ => true
  | _ => false
  end.

(** A state with further events in its log. *)
Definition logged {World : Type} (evs : list Event) (st : State World)
  : State World :=
  {| st_context := st_context st; st_world := st_world st;
     st_log := (st_log st ++ evs)%list |}.

(** The events one call of [handle_query] adds, with the context before and
    after: the triage call alone when it raises, else the triage call, the
    assignment and the responder call. *)
Inductive routed (c : UserContext) : list Event -> UserContext -> Prop :=
| routed_triage_raised prompt :
    routed c [EvRun triage_agent prompt c []] c
| routed_dispatched prompt category a :
    a <> triage_agent ->
    routed c
      [EvRun triage_agent prompt c [];
       EvSetAttr "issue_type" (VStr category);
       EvRun a prompt (with_issue_type c category)
         (offered_tools a (with_issue_type c category))]
      (with_issue_type c category).

(** The events of one turn of the loop after the prompt was shown. *)
Inductive turn (c : UserContext) : list Event -> UserContext -> Prop :=
| turn_no_query : turn c [] c
| turn_query evs c' : routed c evs c' -> turn c evs c'.

Definition at_most_one_print (evs : list Event) : Prop :=
  evs = [] \/ exists text, evs = [EvPrint text].

(** Every assignment in a log is to [issue_type], comes right after a triage
    call and is followed at once by the call of a responder. *)
Definition bracketed (log : list Event) : Prop :=
  forall l1 field value l2,
    log = (l1 ++ EvSetAttr field value :: l2)%list ->
    field = "issue_type" /\
    (exists l0 prompt c, l1 = (l0 ++ [EvRun triage_agent prompt c []])%list) /\
    (exists a prompt c offered l3,
        l2 = EvRun a prompt c offered :: l3 /\ a <> triage_agent).

Definition is_run (e : Event) : bool :=
  match e with
  | EvRun _ _ _ _ => true
  | _ => false
  end.

Definition is_assignment (e : Event) : bool :=
  match e with
  | EvSetAttr _ _ => true
  | _ => false
  end.

(** What holds of the log and the context throughout a session. *)
Record session_inv (log : list Event) (c : UserContext) : Prop := {
  inv_name : name c = Some "Omer";
  inv_premium : is_premium_user c = true;
  inv_bracketed : bracketed log;
  inv_runs : forall a prompt c' offered,
      In (EvRun a prompt c' offered) log ->
      name c' = Some "Omer" /\ is_premium_user c' = true;
  inv_first_run :
    match List.find is_run log with
    | None => issue_type c = None
    | Some e => exists prompt c0,
        e = EvRun triage_agent prompt c0 [] /\ issue_type c0 = None
    end
}.

(** A backend that reads its answers off a list, one per call, whatever the
    agent; once the list is used up every call fails. *)
Module Script.

Definition backend
  : AgentId -> string -> UserContext -> list ToolId ->
    list (exn + string) -> (exn + string) * list (exn + string) :=
  fun _ _ _ _ answers =>
    match answers with
    | answer :: rest => (answer, rest)
    | [] => (inl (Exception "RuntimeError" "no answer left"), [])
    end.

Definition start (c : UserContext) (answers : list (exn + string))
  : State (list (exn + string)) :=
  {| st_context := c; st_world := answers; st_log := [] |}.

End Script.

(** A console entry that is a line of whitespace only. *)
Definition is_blank_line (console : exn + string) : bool :=
  match console with
  | inr line => PyStr.all_space line
  | inl _ => false
  end.

Definition is_input (e : Event) : bool :=
  match e with
  | EvInput _ => true
  | _ => false
  end.

(** Two states that differ at most in the prompts their logs show. *)
Definition same_but_prompts {World : Type} (st st' : State World) : Prop :=
  st_context st = st_context st' /\
  st_world st = st_world st' /\
  List.filter (fun e => negb (is_input e)) (st_log st)
  = List.filter (fun e => negb (is_input e)) (st_log st').

(** * Properties *)

Local Open Scope list_scope.

(** ** Strings *)

Section StringFacts.
Import PyStr.

Lemma lower_char_idem c : lower_char (lower_char c) = lower_char c.
Proof.
  destruct c as [[] [] [] [] [] [] [] []]; vm_compute; reflexivity.
Qed.

Lemma isspace_lower_char c : isspace (lower_char c) = isspace c.
Proof.
  destruct c as [[] [] [] [] [] [] [] []]; vm_compute; reflexivity.
Qed.

Lemma lower_idem s : lower (lower s) = lower s.
Proof.
  induction s as [|c s IH]; simpl; [reflexivity|].
  now rewrite lower_char_idem, IH.
Qed.

Lemma lstrip_lower s : lstrip (lower s) = lower (lstrip s).
Proof.
  induction s as [|c s IH]; simpl; [reflexivity|].
  rewrite isspace_lower_char. destruct (isspace c); [exact IH | reflexivity].
Qed.

Lemma rstrip_lower s : rstrip (lower s) = lower (rstrip s).
Proof.
  induction s as [|c s IH]; simpl; [reflexivity|].
  rewrite IH, isspace_lower_char.
  destruct (rstrip s) as [|d r]; simpl.
  - destruct (isspace c); reflexivity.
  - reflexivity.
Qed.

Lemma strip_lower s : strip (lower s) = lower (strip s).
Proof. unfold strip. now rewrite lstrip_lower, rstrip_lower. Qed.

Lemma rstrip_idem s : rstrip (rstrip s) = rstrip s.
Proof.
  induction s as [|c s IH]; simpl; [reflexivity|].
  destruct (rstrip s) as [|d r] eqn:E.
  - destruct (isspace c) eqn:Ec; simpl; [reflexivity | now rewrite Ec].
  - simpl in IH |- *. now rewrite IH.
Qed.

Lemma lstrip_solid s : starts_solid (lstrip s).
Proof.
  induction s as [|c s IH]; simpl; [exact I|].
  destruct (isspace c) eqn:E; [exact IH | exact E].
Qed.

Lemma lstrip_of_solid s : starts_solid s -> lstrip s = s.
Proof. destruct s as [|c s]; simpl; [reflexivity | now intros ->]. Qed.

Lemma rstrip_solid s : starts_solid s -> starts_solid (rstrip s).
Proof.
  destruct s as [|c s]; simpl; [exact (fun H => H)|].
  intros Hc. destruct (rstrip s); simpl; [now rewrite Hc | exact Hc].
Qed.

Lemma strip_idem s : strip (strip s) = strip s.
Proof.
  unfold strip.
  rewrite (lstrip_of_solid (rstrip (lstrip s))).
  - apply rstrip_idem.
  - apply rstrip_solid, lstrip_solid.
Qed.

Lemma lstrip_all_space s : all_space s = true -> lstrip s = EmptyString.
Proof.
  induction s as [|c s IH]; simpl; [reflexivity|].
  intros [Hc Hs]%andb_prop. rewrite Hc. exact (IH Hs).
Qed.

Lemma strip_all_space s : all_space s = true -> strip s = EmptyString.
Proof. intros H. unfold strip. now rewrite lstrip_all_space. Qed.

Lemma rstrip_empty_all_space s : rstrip s = EmptyString -> all_space s = true.
Proof.
  induction s as [|c s IH]; simpl; [reflexivity|].
  destruct (rstrip s) eqn:E; [|discriminate].
  destruct (isspace c); [intros _; now apply IH | discriminate].
Qed.

Lemma all_space_lstrip s : all_space (lstrip s) = true -> all_space s = true.
Proof.
  induction s as [|c s IH]; simpl; [reflexivity|].
  destruct (isspace c) eqn:E; simpl; [exact IH|].
  rewrite E. discriminate.
Qed.

(** [strip] gives the empty string on the whitespace-only strings and on no
    other. *)
Lemma strip_empty_iff s : strip s = EmptyString <-> all_space s = true.
Proof.
  split; [|apply strip_all_space].
  intros H. now apply all_space_lstrip, rstrip_empty_all_space.
Qed.

End StringFacts.


(** ** The two gates *)

Lemma getattr_attrs_is_premium_user c d :
  getattr (attrs c) "is_premium_user" d = VBool (is_premium_user c).
Proof.
  unfold getattr, attrs.
  rewrite lookup_insert_ne by discriminate.
  now rewrite lookup_insert_eq.
Qed.

Lemma getattr_attrs_issue_type c d :
  getattr (attrs c) "issue_type" d = of_optional (issue_type c).
Proof.
  unfold getattr, attrs.
  do 2 (rewrite lookup_insert_ne by discriminate).
  now rewrite lookup_insert_eq.
Qed.

Lemma refund_gate_on_context c :
  truthy (is_enabled refund_tool refund_tool (attrs c)) = is_premium_user c.
Proof.
  simpl. unfold refund_tool_is_enabled.
  now rewrite getattr_attrs_is_premium_user.
Qed.

Lemma eq_str_of_optional o s :
  eq_str (of_optional o) s = true <-> o = Some s.
Proof.
  destruct o as [t|]; simpl.
  - rewrite String.eqb_eq. split; congruence.
  - split; discriminate.
Qed.

Lemma restart_gate_on_context c :
  truthy (is_enabled restart_service_tool restart_service_tool (attrs c)) = true
  <-> issue_type c = Some "technical".
Proof.
  simpl. unfold restart_service_tool_is_enabled.
  rewrite getattr_attrs_issue_type. apply eq_str_of_optional.
Qed.

Lemma in_offered_tools t a c :
  In t (offered_tools a c) <->
  In t (tools a) /\ truthy (is_enabled t t (attrs c)) = true.
Proof. unfold offered_tools. apply filter_In. Qed.

(** C3.  The refund gate answers false on an object without the attribute
    [is_premium_user] and on one where it is [False]; on a user context it
    answers the flag itself, so the refund tool is among the tools offered
    for a call exactly when the agent carries it and the flag is true. *)
Theorem refund_gate_requires_premium :
  (forall (tool : ToolId) (o : PyObj),
      o !! "is_premium_user" = None ->
      truthy (refund_tool_is_enabled tool o) = false) /\
  (forall (tool : ToolId) (o : PyObj),
      o !! "is_premium_user" = Some (VBool false) ->
      truthy (refund_tool_is_enabled tool o) = false) /\
  (forall (a : AgentId) (c : UserContext),
      is_premium_user c = false -> ~ In refund_tool (offered_tools a c)) /\
  (forall (a : AgentId) (c : UserContext),
      In refund_tool (offered_tools a c) <->
      In refund_tool (tools a) /\ is_premium_user c = true).
Proof.
  split; [|split; [|split]].
  - intros tool o H. unfold refund_tool_is_enabled, getattr. now rewrite H.
  - intros tool o H. unfold refund_tool_is_enabled, getattr. now rewrite H.
  - intros a c Hc [_ H]%in_offered_tools.
    rewrite refund_gate_on_context in H. congruence.
  - intros a c. rewrite in_offered_tools, refund_gate_on_context. tauto.
Qed.

(** C4.  The restart gate answers true exactly when the attribute
    [issue_type] is the string "technical": it answers false when the
    attribute is missing, when it is [None] and for every other value.  On a
    user context the restart tool is among the tools offered for a call
    exactly when the agent carries it and [issue_type] is "technical". *)
Theorem restart_gate_requires_technical :
  (forall (tool : ToolId) (o : PyObj),
      truthy (restart_service_tool_is_enabled tool o) = true <->
      o !! "issue_type" = Some (VStr "technical")) /\
  (forall (tool : ToolId) (o : PyObj),
      o !! "issue_type" = None \/ o !! "issue_type" = Some VNone ->
      truthy (restart_service_tool_is_enabled tool o) = false) /\
  (forall (a : AgentId) (c : UserContext),
      issue_type c <> Some "technical" ->
      ~ In restart_service_tool (offered_tools a c)) /\
  (forall (a : AgentId) (c : UserContext),
      In restart_service_tool (offered_tools a c) <->
      In restart_service_tool (tools a) /\ issue_type c = Some "technical").
Proof.
  split; [|split; [|split]].
  - intros tool o. unfold restart_service_tool_is_enabled, getattr. simpl.
    destruct (o !! "issue_type") as [[| | |s]|]; simpl;
      try (split; [discriminate | congruence]).
    rewrite String.eqb_eq. split; congruence.
  - intros tool o [H|H]; unfold restart_service_tool_is_enabled, getattr;
      now rewrite H.
  - intros a c Hc [_ H]%in_offered_tools.
    now apply restart_gate_on_context in H.
  - intros a c. rewrite in_offered_tools, restart_gate_on_context. tauto.
Qed.

(** ** The router *)

Section Router.

Context {World : Type}.
Variable Runner_run :
  AgentId -> string -> UserContext -> list ToolId -> World ->
  (exn + string) * World.

(** One backend call: what it returns and what it leaves behind. *)
Lemma run_eq agent prompt (st : State World) :
  run Runner_run agent prompt st =
  let c := st_context st in
  let offered := offered_tools agent c in
  let rw := Runner_run agent prompt c offered (st_world st) in
  (result_of (fst rw),
   {| st_context := c; st_world := snd rw;
      st_log := st_log st ++ [EvRun agent prompt c offered] |}).
Proof.
  unfold run. cbv zeta.
  destruct (Runner_run _ _ _ _ _) as [[e|out] w]; reflexivity.
Qed.

(** [handle_query] in closed form: the triage call, then, if it answered,
    the assignment and the call of the branch's agent. *)
Lemma handle_query_eq prompt (st : State World) :
  handle_query Runner_run prompt st =
  let c := st_context st in
  let tw := Runner_run triage_agent prompt c [] (st_world st) in
  match fst tw with
  | inl e =>
      (inl e,
       {| st_context := c; st_world := snd tw;
          st_log := st_log st ++ [EvRun triage_agent prompt c []] |})
  | inr out =>
      let category := normalize out in
      let c' := with_issue_type c category in
      let a := branch_of category in
      let offered := offered_tools a c' in
      let rw := Runner_run a prompt c' offered (snd tw) in
      (result_of (fst rw),
       {| st_context := c'; st_world := snd rw;
          st_log := st_log st ++
            [EvRun triage_agent prompt c [];
             EvSetAttr "issue_type" (VStr category);
             EvRun a prompt c' offered] |})
  end.
Proof.
  unfold handle_query, bind. rewrite run_eq. cbv zeta.
  change (offered_tools triage_agent (st_context st)) with (@nil ToolId).
  destruct (Runner_run triage_agent prompt _ _ _) as [[e|out] w1]; simpl;
    [reflexivity|].
  fold (normalize out). unfold branch_of.
  assert (Hrun : forall a,
    run Runner_run a prompt
      {| st_context := with_issue_type (st_context st) (normalize out);
         st_world := w1;
         st_log := (st_log st ++ [EvRun triage_agent prompt (st_context st) []])
                   ++ [EvSetAttr "issue_type" (VStr (normalize out))] |} =
    (result_of (fst (Runner_run a prompt
        (with_issue_type (st_context st) (normalize out))
        (offered_tools a (with_issue_type (st_context st) (normalize out)))
        w1)),
     {| st_context := with_issue_type (st_context st) (normalize out);
        st_world := snd (Runner_run a prompt
          (with_issue_type (st_context st) (normalize out))
          (offered_tools a (with_issue_type (st_context st) (normalize out)))
          w1);
        st_log := st_log st ++
          [EvRun triage_agent prompt (st_context st) [];
           EvSetAttr "issue_type" (VStr (normalize out));
           EvRun a prompt (with_issue_type (st_context st) (normalize out))
             (offered_tools a
                (with_issue_type (st_context st) (normalize out)))] |})).
  { intros a. rewrite run_eq. cbv zeta. simpl.
    now rewrite <- !app_assoc. }
  destruct (String.eqb (normalize out) "billing");
    [apply Hrun|].
  destruct (String.eqb (normalize out) "technical"); apply Hrun.
Qed.

Lemma branch_of_cases category :
  (category = "billing" -> branch_of category = billing_agent) /\
  (category = "technical" -> branch_of category = tech_agent) /\
  (category <> "billing" -> category <> "technical" ->
   branch_of category = general_agent).
Proof.
  unfold branch_of. split; [|split].
  - now intros ->.
  - now intros ->.
  - intros Hb Ht.
    apply String.eqb_neq in Hb. apply String.eqb_neq in Ht.
    now rewrite Hb, Ht.
Qed.

Lemma branch_of_responder category :
  branch_of category <> triage_agent.
Proof.
  unfold branch_of.
  destruct (String.eqb category "billing"); [discriminate|].
  destruct (String.eqb category "technical"); discriminate.
Qed.

(** C1.  When the triage call answers [out], [handle_query] makes exactly
    one further backend call.  Its agent is fixed by comparing the normalised
    answer with the two literals: the billing agent for "billing", the
    technical agent for "technical", the general agent for every other
    string.  The call gets the original prompt and the updated context, and
    what it returns or raises is what [handle_query] returns or raises:
    the router itself raises nothing for an unknown category. *)
Theorem handle_query_dispatches_once
  (prompt : string) (st : State World) (out : string) (w1 : World)
  (Htriage :
     Runner_run triage_agent prompt (st_context st) [] (st_world st)
     = (inr out, w1)) :
  let category := normalize out in
  let context := with_issue_type (st_context st) category in
  exists responder : AgentId,
    (category = "billing" -> responder = billing_agent) /\
    (category = "technical" -> responder = tech_agent) /\
    (category <> "billing" -> category <> "technical" ->
     responder = general_agent) /\
    responder <> triage_agent /\
    let offered := offered_tools responder context in
    let answer := Runner_run responder prompt context offered w1 in
    let after := handle_query Runner_run prompt st in
    exists events : list Event,
      st_log (snd after) = st_log st ++ events /\
      events = [EvRun triage_agent prompt (st_context st) [];
                EvSetAttr "issue_type" (VStr category);
                EvRun responder prompt context offered] /\
      List.filter is_responder_run events
      = [EvRun responder prompt context offered] /\
      fst after = result_of (fst answer) /\
      st_world (snd after) = snd answer.
Proof.
  intros category context.
  pose proof (branch_of_cases category) as (Hb & Ht & Hg).
  exists (branch_of category).
  split; [exact Hb|]. split; [exact Ht|]. split; [exact Hg|].
  split; [apply branch_of_responder|].
  cbv zeta. rewrite handle_query_eq. cbv zeta. rewrite Htriage. simpl.
  eexists. split; [reflexivity|]. split; [reflexivity|].
  split; [|split; reflexivity].
  fold category. fold context.
  pose proof (branch_of_responder category) as Hne.
  destruct (branch_of category); [contradiction| reflexivity ..].
Qed.

(** C2.  When the triage call answers [out], the context's [issue_type]
    after [handle_query] is the normalised [out], whichever branch was taken
    and whatever the responder call did; nothing tests the value before it
    is stored. *)
Theorem handle_query_records_category
  (prompt : string) (st : State World) (out : string) (w1 : World)
  (Htriage :
     Runner_run triage_agent prompt (st_context st) [] (st_world st)
     = (inr out, w1)) :
  issue_type (st_context (snd (handle_query Runner_run prompt st)))
  = Some (normalize out).
Proof.
  rewrite handle_query_eq. cbv zeta. rewrite Htriage. reflexivity.
Qed.

(** The two fields set at construction come out of [handle_query] as they
    went in, on every path. *)
Lemma handle_query_frame prompt (st : State World) :
  name (st_context (snd (handle_query Runner_run prompt st)))
  = name (st_context st) /\
  is_premium_user (st_context (snd (handle_query Runner_run prompt st)))
  = is_premium_user (st_context st).
Proof.
  rewrite handle_query_eq. cbv zeta.
  destruct (Runner_run triage_agent _ _ _ _) as [[e|out] w1]; simpl;
    split; reflexivity.
Qed.

End Router.

(** ** The session loop *)

Lemma bracketed_no_assignment log :
  List.forallb (fun e => negb (is_assignment e)) log = true -> bracketed log.
Proof.
  intros H l1 field value l2 ->.
  rewrite forallb_app in H. apply andb_prop in H as [_ H].
  simpl in H. discriminate.
Qed.

Lemma bracketed_app log1 log2 :
  bracketed log1 -> bracketed log2 -> bracketed (log1 ++ log2).
Proof.
  intros H1 H2 l1 field value l2 Heq.
  apply app_eq_app in Heq as [l [[-> Hl]|[-> Hl]]].
  - destruct l as [|e l]; simpl in Hl.
    + destruct (H2 [] field value l2 (eq_sym Hl))
        as (_ & (l0 & p & c & Hnil) & _).
      now destruct l0.
    + injection Hl as <- ->.
      destruct (H1 l1 field value l eq_refl)
        as (Hf & Hpre & (a & p & c & off & l3 & -> & Ha)).
      split; [exact Hf|]. split; [exact Hpre|].
      exists a, p, c, off, (l3 ++ log2). now split.
  - destruct (H2 l field value l2 Hl)
      as (Hf & (l0 & p & c & ->) & Hpost).
    split; [exact Hf|]. split; [|exact Hpost].
    exists (log1 ++ l0), p, c. now rewrite app_assoc.
Qed.

Lemma bracketed_routed c evs c' : routed c evs c' -> bracketed evs.
Proof.
  intros [prompt|prompt category a Ha].
  - now apply bracketed_no_assignment.
  - intros l1 field value l2 Heq.
    destruct l1 as [|e1 [|e2 [|e3 [|e4 l1]]]]; simpl in Heq;
      try discriminate.
    injection Heq as <- <- <- <-.
    split; [reflexivity|]. split.
    + now exists [], prompt, c.
    + now eexists a, prompt, _, _, [].
Qed.

Lemma find_app {A} (f : A -> bool) (l1 l2 : list A) :
  List.find f (l1 ++ l2) =
  match List.find f l1 with
  | Some x => Some x
  | None => List.find f l2
  end.
Proof.
  induction l1 as [|x l1 IH]; simpl; [reflexivity|].
  destruct (f x); [reflexivity | exact IH].
Qed.

Lemma find_none_not_in {A} (f : A -> bool) (l : list A) (x : A) :
  List.forallb (fun e => negb (f e)) l = true -> In x l -> f x = false.
Proof.
  rewrite forallb_forall. intros H Hx. apply H in Hx.
  now destruct (f x).
Qed.

Lemma find_quiet {A} (f : A -> bool) (l : list A) :
  List.forallb (fun e => negb (f e)) l = true -> List.find f l = None.
Proof.
  induction l as [|x l IH]; simpl; [reflexivity|].
  intros [Hx Hl]%andb_prop. destruct (f x); [discriminate | exact (IH Hl)].
Qed.

(** Events that are neither backend calls nor assignments keep the
    invariant. *)
Lemma session_inv_quiet log c evs :
  List.forallb (fun e => negb (is_run e)) evs = true ->
  List.forallb (fun e => negb (is_assignment e)) evs = true ->
  session_inv log c -> session_inv (log ++ evs) c.
Proof.
  intros Hrun Hset [Hn Hp Hb Hr Hf]. split; try assumption.
  - apply bracketed_app; [exact Hb | now apply bracketed_no_assignment].
  - intros a prompt c' offered [Hin|Hin]%in_app_or; [now apply (Hr a prompt c' offered)|].
    now apply (find_none_not_in is_run evs) in Hin.
  - rewrite find_app. destruct (List.find is_run log); [exact Hf|].
    now rewrite find_quiet.
Qed.

(** So do the events of one routed query. *)
Lemma session_inv_routed log c evs c' :
  routed c evs c' -> session_inv log c -> session_inv (log ++ evs) c'.
Proof.
  intros Hev [Hn Hp Hb Hr Hf].
  assert (Hbr : bracketed (log ++ evs))
    by (apply bracketed_app; [exact Hb | eapply bracketed_routed, Hev]).
  destruct Hev as [prompt|prompt category a Ha]; split; try assumption.
  - intros a p c' off [Hin|[Hin|[]]]%in_app_or; [now apply (Hr a p c' off)|].
    injection Hin as <- <- <- <-. now split.
  - rewrite find_app. destruct (List.find is_run log); [exact Hf|].
    simpl. now exists prompt, c.
  - intros a' p c' off [Hin|Hin]%in_app_or; [now apply (Hr a' p c' off)|].
    destruct Hin as [Hin|[Hin|[Hin|[]]]]; try discriminate;
      injection Hin as <- <- <- <-; now split.
  - rewrite find_app. destruct (List.find is_run log); [exact Hf|].
    simpl. now exists prompt, c.
Qed.

Section Session.

Context {World : Type}.
Variable Runner_run :
  AgentId -> string -> UserContext -> list ToolId -> World ->
  (exn + string) * World.
Variable load_dotenv : gmap string string -> gmap string string.

Lemma handle_query_routed prompt (st : State World) :
  exists evs,
    st_log (snd (handle_query Runner_run prompt st)) = st_log st ++ evs /\
    routed (st_context st) evs
      (st_context (snd (handle_query Runner_run prompt st))).
Proof.
  rewrite handle_query_eq. cbv zeta.
  destruct (Runner_run triage_agent _ _ _ _) as [[e|out] w1]; simpl.
  - eexists. split; [reflexivity|]. constructor.
  - eexists. split; [reflexivity|]. constructor. apply branch_of_responder.
Qed.

(** The body of the [try] in closed form. *)
Lemma try_body_eq console (st : State World) :
  try_body Runner_run console st =
  let st1 := logged [EvInput input_prompt] st in
  match console with
  | inl e => (inl e, st1)
  | inr line =>
      if PyStr.is_empty (PyStr.strip line) then (inr tt, st1)
      else
        match handle_query Runner_run (PyStr.strip line) st1 with
        | (inr result, st2) => (inr tt, logged [EvPrint (answer_line result)] st2)
        | (inl e, st2) => (inl e, st2)
        end
  end.
Proof.
  unfold try_body, input, print, bind, emit, ret, raise, logged.
  destruct console as [e|line]; cbv beta iota zeta; [reflexivity|].
  destruct (PyStr.is_empty (PyStr.strip line)); [reflexivity|].
  destruct (handle_query _ _ _) as [[e|r] st2]; reflexivity.
Qed.

(** One turn adds the prompt, the events of at most one routed query and at
    most one printed line. *)
Lemma loop_body_events console (st : State World) :
  exists evs tail,
    st_log (snd (loop_body Runner_run console st))
    = st_log st ++ [EvInput input_prompt] ++ evs ++ tail /\
    turn (st_context st) evs
      (st_context (snd (loop_body Runner_run console st))) /\
    at_most_one_print tail.
Proof.
  unfold loop_body. rewrite try_body_eq. cbv zeta.
  destruct console as [e|line].
  - exists [].
    destruct e as [| msg | | cls msg];
      [ exists [EvPrint farewell] | exists [] | exists []
      | exists [EvPrint (error_line (Exception cls msg))] ];
      simpl; rewrite <- ?app_assoc; (split; [reflexivity|]);
      (split; [constructor|]); unfold at_most_one_print; eauto.
  - destruct (PyStr.is_empty (PyStr.strip line)).
    { exists [], []. simpl. split; [reflexivity|].
      split; [constructor | now left]. }
    destruct (handle_query_routed (PyStr.strip line)
                (logged [EvInput input_prompt] st)) as (evs & Hlog & Hev).
    exists evs.
    destruct (handle_query _ _ _) as [[e|r] st2]; simpl in Hlog, Hev.
    + destruct e as [| msg | | cls msg];
        [ exists [EvPrint farewell] | exists [] | exists []
        | exists [EvPrint (error_line (Exception cls msg))] ];
        simpl; rewrite Hlog, ?app_nil_r, <- ?app_assoc;
        (split; [reflexivity|]);
        (split; [now constructor|]); unfold at_most_one_print; eauto.
    + exists [EvPrint (answer_line r)].
      simpl. rewrite Hlog, <- ?app_assoc.
      split; [reflexivity|].
      split; [now constructor|]. unfold at_most_one_print; eauto.
Qed.

Lemma loop_body_inv console (st : State World) :
  session_inv (st_log st) (st_context st) ->
  session_inv (st_log (snd (loop_body Runner_run console st)))
    (st_context (snd (loop_body Runner_run console st))).
Proof.
  intros Hinv.
  destruct (loop_body_events console st) as (evs & tail & -> & Hturn & Htail).
  rewrite !app_assoc.
  apply session_inv_quiet;
    [destruct Htail as [->|[t ->]]; reflexivity ..|].
  rewrite <- app_assoc.
  apply (session_inv_quiet _ _ [EvInput input_prompt] eq_refl eq_refl) in Hinv.
  destruct Hturn as [|evs c' Hev].
  - now rewrite app_nil_r.
  - rewrite app_assoc. now apply session_inv_routed with (c := st_context st).
Qed.

Lemma while_true_inv script : forall st : State World,
  session_inv (st_log st) (st_context st) ->
  session_inv (st_log (snd (while_true Runner_run script st)))
    (st_context (snd (while_true Runner_run script st))).
Proof.
  induction script as [|console rest IH]; intros st Hinv; simpl;
    [exact Hinv|].
  pose proof (loop_body_inv console st Hinv) as Hstep.
  destruct (loop_body Runner_run console st) as [[| |e] st']; simpl in *;
    [now apply IH | exact Hstep ..].
Qed.

Lemma run_loop_inv script (w : World) :
  session_inv (st_log (snd (run_loop Runner_run script w)))
    (st_context (snd (run_loop Runner_run script w))).
Proof.
  unfold run_loop. cbv zeta. apply while_true_inv. simpl.
  split; simpl; try reflexivity.
  - now apply bracketed_no_assignment.
  - intros a p c off [Hin|[]]. discriminate.
Qed.

Lemma run_frame agent prompt (st : State World) :
  st_context (snd (run Runner_run agent prompt st)) = st_context st.
Proof. now rewrite run_eq. Qed.

(** C5.  After construction the context is assigned to in one place only.
    A backend call, with the gate evaluation made for it, leaves the context
    as it was; [handle_query] keeps [name] and [is_premium_user]; and in
    every session, whatever the console and the backend do, the context
    still has the name and the flag it was built with at each backend call
    and at the end, while every assignment in the log is to [issue_type],
    comes right after a triage call and is followed at once by the call of a
    responder. *)
Theorem context_written_only_by_router :
  (forall agent prompt (st : State World),
      st_context (snd (run Runner_run agent prompt st)) = st_context st) /\
  (forall prompt (st : State World),
      let st' := snd (handle_query Runner_run prompt st) in
      name (st_context st') = name (st_context st) /\
      is_premium_user (st_context st') = is_premium_user (st_context st)) /\
  (forall (script : list (exn + string)) (w : World),
      let final := snd (run_loop Runner_run script w) in
      name (st_context final) = name (st_context (initial_state w)) /\
      is_premium_user (st_context final)
      = is_premium_user (st_context (initial_state w)) /\
      (forall a prompt c offered,
          In (EvRun a prompt c offered) (st_log final) ->
          name c = name (st_context (initial_state w)) /\
          is_premium_user c
          = is_premium_user (st_context (initial_state w))) /\
      (forall l1 field value l2,
          st_log final = l1 ++ EvSetAttr field value :: l2 ->
          field = "issue_type" /\
          (exists l0 prompt c, l1 = l0 ++ [EvRun triage_agent prompt c []]) /\
          (exists a prompt c offered l3,
              l2 = EvRun a prompt c offered :: l3 /\ a <> triage_agent))).
Proof.
  split; [exact run_frame|]. split; [exact (handle_query_frame Runner_run)|].
  intros script w final.
  destruct (run_loop_inv script w) as [Hn Hp Hb Hr _].
  fold final in Hn, Hp, Hb, Hr. simpl.
  split; [exact Hn|]. split; [exact Hp|]. split; [exact Hr | exact Hb].
Qed.

(** C10.  The context a session starts with is named "Omer", is premium and
    has no issue type.  At every backend call of every session the context
    is premium and the refund gate answers true on it; the first backend
    call of a session is a triage call, made on a context whose issue type
    is still [None], on which the restart gate answers false. *)
Theorem session_starts_premium_and_untriaged
  (script : list (exn + string)) (w : World) :
  st_context (initial_state w)
  = {| name := Some "Omer"; is_premium_user := true; issue_type := None |} /\
  let log := st_log (snd (run_loop Runner_run script w)) in
  (forall a prompt c offered,
      In (EvRun a prompt c offered) log ->
      is_premium_user c = true /\
      truthy (refund_tool_is_enabled refund_tool (attrs c)) = true) /\
  (forall a prompt c offered,
      List.find is_run log = Some (EvRun a prompt c offered) ->
      a = triage_agent /\ issue_type c = None /\
      truthy (restart_service_tool_is_enabled restart_service_tool (attrs c))
      = false).
Proof.
  split; [reflexivity|]. intros log.
  destruct (run_loop_inv script w) as [_ _ _ Hr Hf].
  fold log in Hr, Hf. split.
  - intros a prompt c offered Hin.
    destruct (Hr a prompt c offered Hin) as [_ Hp].
    split; [exact Hp|].
    exact (eq_trans (refund_gate_on_context c) Hp).
  - intros a prompt c offered Hfind. rewrite Hfind in Hf.
    destruct Hf as (p & c0 & Heq & Hnone).
    injection Heq as -> -> -> ->.
    split; [reflexivity|]. split; [exact Hnone|].
    destruct (truthy _) eqn:E; [|reflexivity].
    pose proof (proj1 (restart_gate_on_context c0) E). congruence.
Qed.

(** C8.  On a line made of whitespace only, the empty line included, one
    turn of the loop does nothing but show the prompt: no backend call, no
    assignment to the context and no printed line are logged, the context
    and the backend are as before, and the loop goes on to the next line. *)
Theorem blank_line_is_skipped
  (line : string) (st : State World)
  (Hblank : PyStr.all_space line = true) :
  let st' :=
    {| st_context := st_context st; st_world := st_world st;
       st_log := st_log st ++ [EvInput input_prompt] |} in
  loop_body Runner_run (inr line) st = (Continue, st') /\
  forall rest,
    while_true Runner_run (inr line :: rest) st
    = while_true Runner_run rest st'.
Proof.
  intros st'.
  assert (H : loop_body Runner_run (inr line) st = (Continue, st')).
  { unfold loop_body. rewrite try_body_eq. cbv zeta.
    now rewrite (strip_all_space line Hblank). }
  split; [exact H|]. intros rest. simpl. now rewrite H.
Qed.

Lemma loop_body_control console (st : State World) :
  match fst (try_body Runner_run console st) with
  | inr _ => fst (loop_body Runner_run console st) = Continue
  | inl KeyboardInterrupt => fst (loop_body Runner_run console st) = Break
  | inl (Exception _ _) => fst (loop_body Runner_run console st) = Continue
  | inl e => fst (loop_body Runner_run console st) = Propagate e
  end.
Proof.
  unfold loop_body.
  destruct (try_body Runner_run console st) as [[[]|u] st1]; reflexivity.
Qed.

Lemma while_true_raised script : forall (st : State World) e,
  fst (while_true Runner_run script st) = Raised e ->
  isinstance_Exception e = false /\ e <> KeyboardInterrupt.
Proof.
  induction script as [|console rest IH]; intros st e; simpl;
    [discriminate|].
  pose proof (loop_body_control console st) as Hc.
  destruct (loop_body Runner_run console st) as [[| |e'] st'] eqn:Hb;
    simpl in *.
  - apply IH.
  - discriminate.
  - intros [= ->].
    destruct (fst (try_body Runner_run console st)) as [[]|u];
      try discriminate; injection Hc as Hc; subst; now split.
Qed.

(** C6, as the code has it.  When the body of the [try] raises an instance
    of [Exception], the turn prints the error line built from it and the
    loop goes on with the next line of the console.  A turn breaks out of
    the loop exactly on [KeyboardInterrupt], and a session is left by an
    exception only when that exception is neither an instance of
    [Exception] nor [KeyboardInterrupt]. *)
Theorem loop_survives_Exception
  (console : exn + string) (st : State World) (cls msg : string)
  (Hraise : fst (try_body Runner_run console st) = inl (Exception cls msg)) :
  let st1 := snd (try_body Runner_run console st) in
  let st2 :=
    {| st_context := st_context st1; st_world := st_world st1;
       st_log := st_log st1 ++ [EvPrint (error_line (Exception cls msg))] |} in
  error_line (Exception cls msg) = ("⚠️ Error: " ++ msg)%string /\
  loop_body Runner_run console st = (Continue, st2) /\
  (forall rest,
      while_true Runner_run (console :: rest) st
      = while_true Runner_run rest st2) /\
  (forall console0 (st0 : State World),
      fst (loop_body Runner_run console0 st0) = Break <->
      fst (try_body Runner_run console0 st0) = inl KeyboardInterrupt) /\
  (forall script (st0 : State World) e,
      fst (while_true Runner_run script st0) = Raised e ->
      isinstance_Exception e = false /\ e <> KeyboardInterrupt).
Proof.
  intros st1 st2.
  assert (H : loop_body Runner_run console st = (Continue, st2)).
  { unfold loop_body. subst st2 st1.
    destruct (try_body Runner_run console st) as [r st1].
    simpl in Hraise. now subst r. }
  split; [reflexivity|]. split; [exact H|]. split; [|split].
  - intros rest. simpl. now rewrite H.
  - intros console0 st0. pose proof (loop_body_control console0 st0) as Hc.
    destruct (fst (try_body Runner_run console0 st0)) as [[]|u];
      rewrite Hc; split; congruence.
  - exact while_true_raised.
Qed.

(** C7.  When the environment read by [os.getenv], that is the process
    environment after [load_dotenv()], has no [GEMINI_API_KEY], the module
    raises [ValueError] while it is being set up: the program ends with that
    exception and with an empty log, so the loop was never entered, no line
    was read and no backend call was made. *)
Theorem missing_api_key_is_fatal
  (environ : gmap string string) (script : list (exn + string)) (w : World)
  (Habsent : load_dotenv environ !! "GEMINI_API_KEY" = None) :
  configure load_dotenv environ
  = inl (Exception "ValueError" "GEMINI_API_KEY is not set.") /\
  main Runner_run load_dotenv environ script w
  = (Raised (Exception "ValueError" "GEMINI_API_KEY is not set."), []).
Proof.
  assert (H : configure load_dotenv environ
              = inl (Exception "ValueError" "GEMINI_API_KEY is not set."))
    by (unfold configure, os_getenv; now rewrite Habsent).
  split; [exact H|]. unfold main. now rewrite H.
Qed.

End Session.

(** ** The definitions at work *)

Example normalize_padded_capitals : normalize "  Billing " = "billing".
Proof. reflexivity. Qed.

Example normalize_whitespace_only : normalize "   " = "".
Proof. reflexivity. Qed.

Example branch_of_samples :
  branch_of "billing" = billing_agent /\
  branch_of "technical" = tech_agent /\
  branch_of "general" = general_agent /\
  branch_of "" = general_agent /\
  branch_of "billing issue" = general_agent /\
  branch_of "urgent" = general_agent.
Proof. repeat split. Qed.

(** Scenario A: the triage says "Billing" for a premium user. *)
Example scenario_billing_premium :
  handle_query (Sample.backend (inr "Billing") (inr "Refund done."))
    "I want my money back" (Sample.start Sample.premium_user)
  = (inr {| final_output := "Refund done." |},
     {| st_context := with_issue_type Sample.premium_user "billing";
        st_world := 2;
        st_log :=
          [EvRun triage_agent "I want my money back" Sample.premium_user [];
           EvSetAttr "issue_type" (VStr "billing");
           EvRun billing_agent "I want my money back"
             (with_issue_type Sample.premium_user "billing") [refund_tool]] |}).
Proof. vm_compute. reflexivity. Qed.

(** Scenario B: the triage says " technical ", padded with spaces. *)
Example scenario_technical_padded :
  st_log (snd (handle_query
    (Sample.backend (inr " technical ") (inr "Restarted."))
    "my router is down" (Sample.start Sample.free_user)))
  = [EvRun triage_agent "my router is down" Sample.free_user [];
     EvSetAttr "issue_type" (VStr "technical");
     EvRun tech_agent "my router is down"
       (with_issue_type Sample.free_user "technical") [restart_service_tool]].
Proof. vm_compute. reflexivity. Qed.

(** Scenario C: the triage says "urgent", which is no category. *)
Example scenario_unrecognised :
  let after := handle_query (Sample.backend (inr "urgent") (inr "Hello."))
                 "HELP" (Sample.start Sample.premium_user) in
  fst after = inr {| final_output := "Hello." |} /\
  issue_type (st_context (snd after)) = Some "urgent" /\
  List.filter is_run (st_log (snd after))
  = [EvRun triage_agent "HELP" Sample.premium_user [];
     EvRun general_agent "HELP"
       (with_issue_type Sample.premium_user "urgent") []].
Proof. vm_compute. repeat split. Qed.

(** Scenario D: "billing" for a user who is not premium: the billing agent
    is called with no tool offered. *)
Example scenario_billing_free :
  List.filter is_responder_run
    (st_log (snd (handle_query (Sample.backend (inr "billing") (inr "Sorry."))
       "refund please" (Sample.start Sample.free_user))))
  = [EvRun billing_agent "refund please"
       (with_issue_type Sample.free_user "billing") []].
Proof. vm_compute. reflexivity. Qed.

(** Scenario E: the backend fails during triage; the loop prints the error
    and reads the next line. *)
Example scenario_backend_failure :
  run_loop
    (Sample.backend (inl (Exception "APIConnectionError" "Connection error."))
       (inr "unused"))
    [inr "hello"; inr ""] 0
  = (AwaitingInput,
     {| st_context := Sample.premium_user;
        st_world := 1;
        st_log :=
          [EvPrint greeting;
           EvInput input_prompt;
           EvRun triage_agent "hello" Sample.premium_user [];
           EvPrint (error_line
                      (Exception "APIConnectionError" "Connection error."));
           EvInput input_prompt] |}).
Proof. vm_compute. reflexivity. Qed.

(** The interrupt ends the session with the farewell. *)
Example scenario_interrupt :
  let '(outcome, st) :=
    run_loop (Sample.backend (inr "general") (inr "Hi!"))
      [inr " hi "; inl KeyboardInterrupt; inr "never read"] 0 in
  outcome = Returned /\
  List.filter (fun e => negb (is_run e || is_assignment e)) (st_log st)
  = [EvPrint greeting; EvInput input_prompt;
     EvPrint (answer_line {| final_output := "Hi!" |});
     EvInput input_prompt; EvPrint farewell].
Proof. vm_compute. split; reflexivity. Qed.

(** The key is looked up after [load_dotenv]; an empty value counts as
    missing. *)
Example configure_samples :
  configure Sample.no_dotenv (<["GEMINI_API_KEY" := "k-123"]> ∅) = inr "k-123" /\
  configure Sample.no_dotenv (<["GEMINI_API_KEY" := ""]> ∅)
  = inl (Exception "ValueError" "GEMINI_API_KEY is not set.") /\
  configure Sample.no_dotenv (<["PATH" := "/usr/bin"]> ∅)
  = inl (Exception "ValueError" "GEMINI_API_KEY is not set.").
Proof. vm_compute. repeat split. Qed.

(** ** The theorems with a premise, applied to runs of the sample backends *)

(** A triage answer of " Technical " sends the query to the technical
    agent, with the restart tool on offer. *)
Lemma handle_query_dispatches_once_witness :
  exists responder : AgentId,
    responder = tech_agent /\
    st_log (snd (handle_query
      (Sample.backend (inr " Technical ") (inr "Restarted."))
      "my router is down" (Sample.start Sample.premium_user)))
    = [EvRun triage_agent "my router is down" Sample.premium_user [];
       EvSetAttr "issue_type" (VStr "technical");
       EvRun responder "my router is down"
         (with_issue_type Sample.premium_user "technical")
         (offered_tools responder
            (with_issue_type Sample.premium_user "technical"))].
Proof.
  destruct (handle_query_dispatches_once
              (Sample.backend (inr " Technical ") (inr "Restarted."))
              "my router is down" (Sample.start Sample.premium_user)
              " Technical " 1 eq_refl)
    as (responder & _ & Ht & _ & _ & events & Hlog & Hev & _).
  exists responder. split; [exact (Ht eq_refl)|].
  rewrite Hlog, Hev. reflexivity.
Defined.

Lemma handle_query_records_category_witness :
  issue_type (st_context (snd (handle_query
    (Sample.backend (inr "  URGENT ") (inr "Hello."))
    "HELP" (Sample.start Sample.free_user))))
  = Some "urgent".
Proof.
  exact (handle_query_records_category
           (Sample.backend (inr "  URGENT ") (inr "Hello."))
           "HELP" (Sample.start Sample.free_user) "  URGENT " 1 eq_refl).
Defined.

Lemma blank_line_is_skipped_witness :
  loop_body (Sample.backend (inr "billing") (inr "unused"))
    (inr "   ") (Sample.start Sample.premium_user)
  = (Continue,
     {| st_context := Sample.premium_user; st_world := 0;
        st_log := [EvInput input_prompt] |}).
Proof.
  exact (proj1 (blank_line_is_skipped
                  (Sample.backend (inr "billing") (inr "unused"))
                  "   " (Sample.start Sample.premium_user) eq_refl)).
Defined.

Lemma loop_survives_Exception_witness :
  loop_body
    (Sample.backend (inl (Exception "APIConnectionError" "Connection error."))
       (inr "unused"))
    (inr "hello") (Sample.start Sample.premium_user)
  = (Continue,
     {| st_context := Sample.premium_user; st_world := 1;
        st_log :=
          [EvInput input_prompt;
           EvRun triage_agent "hello" Sample.premium_user [];
           EvPrint (error_line
                      (Exception "APIConnectionError" "Connection error."))] |}).
Proof.
  exact (proj1 (proj2 (loop_survives_Exception
    (Sample.backend (inl (Exception "APIConnectionError" "Connection error."))
       (inr "unused"))
    (inr "hello") (Sample.start Sample.premium_user)
    "APIConnectionError" "Connection error." eq_refl))).
Defined.

Lemma missing_api_key_is_fatal_witness :
  main (Sample.backend (inr "billing") (inr "Refund done."))
    Sample.no_dotenv (<["PATH" := "/usr/bin"]> ∅) [inr "refund please"] 0
  = (Raised (Exception "ValueError" "GEMINI_API_KEY is not set."), []).
Proof.
  exact (proj2 (missing_api_key_is_fatal
    (Sample.backend (inr "billing") (inr "Refund done."))
    Sample.no_dotenv (<["PATH" := "/usr/bin"]> ∅) [inr "refund please"] 0
    eq_refl)).
Defined.

(** ** An exception the loop does not catch (C6 as first stated)

    [SystemExit] is neither [KeyboardInterrupt] nor an instance of
    [Exception].  Raised by the backend during triage, it passes both
    handlers: no error line is printed, the second line of the console is
    never read, and the session is over.  So it does not hold that every
    exception other than the interrupt leaves the loop running. *)
Lemma system_exit_ends_the_session :
  let backend := Sample.backend (inl (SystemExit "1")) (inr "unused") in
  let st := Sample.start Sample.premium_user in
  SystemExit "1" <> KeyboardInterrupt /\
  fst (try_body backend (inr "hello") st) = inl (SystemExit "1") /\
  fst (loop_body backend (inr "hello") st) = Propagate (SystemExit "1") /\
  run_loop backend [inr "hello"; inr "again"] 0
  = (Raised (SystemExit "1"),
     {| st_context := Sample.premium_user; st_world := 1;
        st_log := [EvPrint greeting; EvInput input_prompt;
                   EvRun triage_agent "hello" Sample.premium_user []] |}) /\
  ~ (forall (console : exn + string) (st0 : State nat) (e : exn),
        e <> KeyboardInterrupt ->
        fst (try_body backend console st0) = inl e ->
        fst (loop_body backend console st0) = Continue).
Proof.
  intros backend st.
  split; [discriminate|]. split; [reflexivity|]. split; [reflexivity|].
  split; [vm_compute; reflexivity|].
  intros H.
  specialize (H (inr "hello") st (SystemExit "1")).
  discriminate H; [discriminate | reflexivity].
Qed.

(** * Further properties of the program *)

(** ** Normalisation *)

Lemma rstrip_all_space s :
  PyStr.all_space s = true -> PyStr.rstrip s = EmptyString.
Proof.
  induction s as [|c s IH]; simpl; [reflexivity|].
  intros [Hc Hs]%andb_prop. now rewrite (IH Hs), Hc.
Qed.

Lemma lstrip_app_space pad s :
  PyStr.all_space pad = true ->
  PyStr.lstrip (pad ++ s)%string = PyStr.lstrip s.
Proof.
  induction pad as [|c pad IH]; simpl; [reflexivity|].
  intros [Hc Hs]%andb_prop. rewrite Hc. exact (IH Hs).
Qed.

Lemma rstrip_app_space s pad :
  PyStr.all_space pad = true ->
  PyStr.rstrip (s ++ pad)%string = PyStr.rstrip s.
Proof.
  intros Hpad. induction s as [|c s IH]; simpl.
  - now apply rstrip_all_space.
  - now rewrite IH.
Qed.

Lemma strip_app_space s pad :
  PyStr.all_space pad = true ->
  PyStr.strip (s ++ pad)%string = PyStr.strip s.
Proof.
  intros Hpad. unfold PyStr.strip.
  induction s as [|c s IH]; simpl.
  - now rewrite lstrip_all_space.
  - destruct (PyStr.isspace c); [exact IH|].
    exact (rstrip_app_space (String c s) pad Hpad).
Qed.

(** X8.  Whitespace around the triage output does not count: padding a
    string with whitespace-only strings on both sides leaves its normal form
    unchanged. *)
Theorem normalize_ignores_padding (pad1 x pad2 : string)
  (Hpad1 : PyStr.all_space pad1 = true)
  (Hpad2 : PyStr.all_space pad2 = true) :
  normalize (pad1 ++ x ++ pad2)%string = normalize x.
Proof.
  unfold normalize. f_equal.
  rewrite <- (strip_app_space x pad2 Hpad2).
  unfold PyStr.strip. now rewrite lstrip_app_space.
Qed.

(** X9.  The normal form is clean: trimming it or lower-casing it again
    changes nothing, trimming and lower-casing can be done in either order,
    and the normal form is empty exactly for the whitespace-only strings. *)
Theorem normalize_normal_form (x : string) :
  PyStr.strip (normalize x) = normalize x /\
  PyStr.lower (normalize x) = normalize x /\
  normalize x = PyStr.strip (PyStr.lower x) /\
  (normalize x = EmptyString <-> PyStr.all_space x = true).
Proof.
  unfold normalize. split; [|split; [|split]].
  - now rewrite strip_lower, strip_idem.
  - apply lower_idem.
  - symmetry. apply strip_lower.
  - rewrite <- strip_empty_iff. split.
    + destruct (PyStr.strip x); [reflexivity | discriminate].
    + now intros ->.
Qed.

(** ** The tools *)

(** X7.  The refund confirmation always names somebody: the context's name
    when that is a non-empty string, the word "user" when the name is [None]
    or empty.  The restart confirmation does not depend on the context. *)
Theorem tool_messages (c : UserContext) :
  (name c = None \/ name c = Some EmptyString ->
   refund_tool_call c = "✅ Refund processed for user.") /\
  (forall n, name c = Some n -> n <> EmptyString ->
   refund_tool_call c = ("✅ Refund processed for " ++ n ++ ".")%string) /\
  name_or_user c <> EmptyString /\
  (forall c', restart_service_tool_call c = restart_service_tool_call c').
Proof.
  unfold refund_tool_call, name_or_user. split; [|split; [|split]].
  - intros [-> | ->]; reflexivity.
  - intros n -> Hn. destruct n; [contradiction | reflexivity].
  - destruct (name c) as [[|ch n]|]; discriminate.
  - reflexivity.
Qed.

(** ** The router, continued *)

Lemma offered_billing c :
  offered_tools billing_agent c
  = if is_premium_user c then [refund_tool] else [].
Proof.
  unfold offered_tools. simpl.
  change (truthy (refund_tool_is_enabled refund_tool (attrs c)))
    with (truthy (is_enabled refund_tool refund_tool (attrs c))).
  now rewrite refund_gate_on_context.
Qed.

Lemma offered_tech_after_assignment c :
  offered_tools tech_agent (with_issue_type c "technical")
  = [restart_service_tool].
Proof.
  unfold offered_tools. simpl. unfold restart_service_tool_is_enabled.
  now rewrite getattr_attrs_issue_type.
Qed.

Lemma branch_of_tech category :
  branch_of category = tech_agent -> category = "technical".
Proof.
  unfold branch_of.
  destruct (String.eqb category "billing"); [discriminate|].
  destruct (String.eqb category "technical") eqn:E; [|discriminate].
  intros _. now apply String.eqb_eq.
Qed.

Section Further.

Context {World : Type}.
Variable Runner_run :
  AgentId -> string -> UserContext -> list ToolId -> World ->
  (exn + string) * World.
Variable load_dotenv : gmap string string -> gmap string string.

(** X1.  When the triage call raises, [handle_query] raises the same
    exception at once: no responder is called and nothing is assigned, so
    the context, [issue_type] included, is what it was before the query. *)
Theorem handle_query_triage_failure
  (prompt : string) (st : State World) (e : exn) (w1 : World)
  (Htriage :
     Runner_run triage_agent prompt (st_context st) [] (st_world st)
     = (inl e, w1)) :
  handle_query Runner_run prompt st
  = (inl e,
     {| st_context := st_context st; st_world := w1;
        st_log := st_log st ++ [EvRun triage_agent prompt (st_context st) []] |}).
Proof.
  rewrite handle_query_eq. cbv zeta. now rewrite Htriage.
Qed.

(** What one query adds to the log, and the tools each of its calls was
    offered. *)
Lemma handle_query_calls prompt (st : State World) :
  exists evs,
    st_log (snd (handle_query Runner_run prompt st)) = st_log st ++ evs /\
    length (List.filter is_run evs) <= 2 /\
    length (List.filter is_assignment evs) <= 1 /\
    (forall text, ~ In (EvPrint text) evs) /\
    (exists more,
        evs = EvRun triage_agent prompt (st_context st) [] :: more /\
        forall a p c offered,
          In (EvRun a p c offered) more -> a <> triage_agent) /\
    forall a p c offered,
      In (EvRun a p c offered) evs ->
      p = prompt /\
      is_premium_user c = is_premium_user (st_context st) /\
      (a = triage_agent \/ a = general_agent -> offered = []) /\
      (a = tech_agent -> offered = [restart_service_tool]) /\
      (a = billing_agent ->
       offered
       = if is_premium_user (st_context st) then [refund_tool] else []).
Proof.
  rewrite handle_query_eq. cbv zeta.
  destruct (Runner_run triage_agent _ _ _ _) as [[e|out] w1]; simpl;
    eexists; (split; [reflexivity|]); simpl.
  - split; [lia|]. split; [lia|]. split; [intros text [H|[]]; discriminate|].
    split; [exists []; split; [reflexivity | intros a p c off []]|].
    intros a p c off [H|[]]. injection H as <- <- <- <-.
    split; [reflexivity|]. split; [reflexivity|].
    repeat split; intros; try discriminate; reflexivity.
  - pose proof (branch_of_responder (normalize out)) as Hne.
    pose proof (branch_of_tech (normalize out)) as Htech.
    set (cat := normalize out) in *. set (a0 := branch_of cat) in *.
    split; [lia|]. split; [lia|].
    split; [intros text [H|[H|[H|[]]]]; discriminate|].
    split.
    { eexists. split; [reflexivity|].
      intros a p c off [H|[H|[]]]; [discriminate|].
      now injection H as <- _ _ _. }
    intros a p c off [H|[H|[H|[]]]]; try discriminate.
    + injection H as <- <- <- <-.
      split; [reflexivity|]. split; [reflexivity|].
      repeat split; intros; try discriminate; reflexivity.
    + injection H as <- <- <- <-. split; [reflexivity|].
      split; [reflexivity|]. split; [|split].
      * intros [H|H]; [contradiction|].
        unfold offered_tools. now rewrite H.
      * intros H. rewrite H. rewrite (Htech H).
        apply offered_tech_after_assignment.
      * intros H. rewrite H, offered_billing. reflexivity.
Qed.

(** X2.  In every call [handle_query] makes, the prompt is the one it was
    given and the tools on offer follow from the agent alone, but for the
    premium flag: the technical agent always gets the restart tool, since the
    issue type was set to "technical" just before; the billing agent gets the
    refund tool exactly for a premium user; the triage and the general agent
    get none. *)
Theorem handle_query_offers (prompt : string) (st : State World) :
  exists evs,
    st_log (snd (handle_query Runner_run prompt st)) = st_log st ++ evs /\
    forall a p c offered,
      In (EvRun a p c offered) evs ->
      p = prompt /\
      (a = triage_agent \/ a = general_agent -> offered = []) /\
      (a = tech_agent -> offered = [restart_service_tool]) /\
      (a = billing_agent ->
       offered
       = if is_premium_user (st_context st) then [refund_tool] else []).
Proof.
  destruct (handle_query_calls prompt st) as (evs & Hlog & _ & _ & _ & _ & H).
  exists evs. split; [exact Hlog|].
  intros a p c offered Hin.
  destruct (H a p c offered Hin) as (Hp & _ & Hrest).
  now split.
Qed.

End Further.

(** ** The session loop, continued *)

Section FurtherSession.

Context {World : Type}.
Variable Runner_run :
  AgentId -> string -> UserContext -> list ToolId -> World ->
  (exn + string) * World.
Variable load_dotenv : gmap string string -> gmap string string.

(** One turn in terms of the body of its [try]. *)
Lemma loop_body_eq console (st : State World) :
  loop_body Runner_run console st =
  let st1 := snd (try_body Runner_run console st) in
  match fst (try_body Runner_run console st) with
  | inr _ => (Continue, st1)
  | inl KeyboardInterrupt => (Break, logged [EvPrint farewell] st1)
  | inl (Exception cls msg) =>
      (Continue, logged [EvPrint (error_line (Exception cls msg))] st1)
  | inl e => (Propagate e, st1)
  end.
Proof.
  unfold loop_body.
  destruct (try_body Runner_run console st) as [[[]|u] st1]; reflexivity.
Qed.

Lemma strip_nonblank line :
  PyStr.all_space line = false ->
  PyStr.is_empty (PyStr.strip line) = false.
Proof.
  intros H. destruct (PyStr.strip line) eqn:E; [|reflexivity].
  apply strip_empty_iff in E. congruence.
Qed.

Lemma logged_logged evs1 evs2 (st : State World) :
  logged evs2 (logged evs1 st) = logged (evs1 ++ evs2) st.
Proof. unfold logged. simpl. now rewrite app_assoc. Qed.

(** The log after a turn on a line that is not blank: the log after the
    query, then at most one printed line. *)
Lemma loop_body_query_log line (st : State World) :
  PyStr.all_space line = false ->
  exists tail,
    at_most_one_print tail /\
    st_log (snd (loop_body Runner_run (inr line) st))
    = st_log (snd (handle_query Runner_run (PyStr.strip line)
                     (logged [EvInput input_prompt] st))) ++ tail.
Proof.
  intros Hsolid. rewrite loop_body_eq, try_body_eq. cbv zeta.
  rewrite (strip_nonblank line Hsolid).
  destruct (handle_query _ _ _) as [[e|r] st2]; simpl.
  - destruct e as [| msg | | cls msg]; simpl;
      [ exists [EvPrint farewell] | exists [] | exists []
      | exists [EvPrint (error_line (Exception cls msg))] ];
      rewrite ?app_nil_r; (split; [|reflexivity]);
      unfold at_most_one_print; eauto.
  - exists [EvPrint (answer_line r)]. split; [|reflexivity].
    unfold at_most_one_print; eauto.
Qed.

(** X4.  A line that is not blank is sent to the router without its
    surrounding whitespace: the turn shows the prompt, calls the triage agent
    on the stripped line in the context as it stood, and every call that
    follows in the turn is a responder call on the same stripped line. *)
Theorem nonblank_line_is_routed
  (line : string) (st : State World)
  (Hsolid : PyStr.all_space line = false) :
  exists rest,
    st_log (snd (loop_body Runner_run (inr line) st))
    = st_log st ++
      EvInput input_prompt
      :: EvRun triage_agent (PyStr.strip line) (st_context st) [] :: rest /\
    forall a p c offered,
      In (EvRun a p c offered) rest ->
      p = PyStr.strip line /\ a <> triage_agent.
Proof.
  destruct (loop_body_query_log line st Hsolid) as (tail & Htail & ->).
  destruct (handle_query_calls Runner_run (PyStr.strip line)
              (logged [EvInput input_prompt] st))
    as (evs & -> & _ & _ & _ & (more & -> & Hmore) & Hall).
  exists (more ++ tail). split.
  - simpl. now rewrite <- !app_assoc.
  - intros a p c off [Hin|Hin]%in_app_or.
    + split; [|now apply (Hmore a p c off)].
      apply (Hall a p c off). now right.
    + destruct Htail as [->|[t ->]]; [destruct Hin|].
      destruct Hin as [Hin|[]]. discriminate.
Qed.

(** X12.  A turn in which both calls answer: for a line that is not blank,
    a triage answer [out] and an answer [reply] of the agent the category
    selects, the turn shows the prompt, makes the two calls around the
    assignment, prints the label and [reply] (the responder's words, not the
    triage's), keeps the new issue type and goes on. *)
Theorem turn_prints_responder_answer
  (line out reply : string) (st : State World) (w1 w2 : World)
  (Hsolid : PyStr.all_space line = false)
  (Htriage :
     Runner_run triage_agent (PyStr.strip line) (st_context st) []
       (st_world st) = (inr out, w1))
  (Hreply :
     let c := with_issue_type (st_context st) (normalize out) in
     let a := branch_of (normalize out) in
     Runner_run a (PyStr.strip line) c (offered_tools a c) w1
     = (inr reply, w2)) :
  let prompt := PyStr.strip line in
  let c := with_issue_type (st_context st) (normalize out) in
  let a := branch_of (normalize out) in
  loop_body Runner_run (inr line) st
  = (Continue,
     {| st_context := c; st_world := w2;
        st_log := st_log st ++
          [EvInput input_prompt;
           EvRun triage_agent prompt (st_context st) [];
           EvSetAttr "issue_type" (VStr (normalize out));
           EvRun a prompt c (offered_tools a c);
           EvPrint (PyStr.LF ++ "AI Bot: " ++ reply)%string] |}).
Proof.
  cbv zeta in *. rewrite loop_body_eq, try_body_eq. cbv zeta.
  rewrite (strip_nonblank line Hsolid), handle_query_eq. cbv zeta.
  simpl st_context. simpl st_world. rewrite Htriage. simpl fst. simpl snd.
  cbv iota beta. rewrite Hreply. simpl.
  unfold logged. simpl. now rewrite <- !app_assoc.
Qed.

Lemma EvPrint_inj a b : EvPrint a = EvPrint b -> a = b.
Proof. now intros [= ->]. Qed.

Lemma answer_line_not_farewell r : answer_line r <> farewell.
Proof. intros H. cbv in H. discriminate H. Qed.

Lemma error_line_not_farewell e : error_line e <> farewell.
Proof. intros H. cbv in H. discriminate H. Qed.

(** The body of the [try] never prints the farewell. *)
Lemma try_body_no_farewell console (st : State World) :
  ~ In (EvPrint farewell) (st_log st) ->
  ~ In (EvPrint farewell) (st_log (snd (try_body Runner_run console st))).
Proof.
  intros Hno. rewrite try_body_eq. cbv zeta.
  assert (H1 : ~ In (EvPrint farewell)
                 (st_log (logged [EvInput input_prompt] st))).
  { simpl. intros [H|[H|[]]]%in_app_or; [now apply Hno | discriminate]. }
  destruct console as [e|line]; [exact H1|].
  destruct (PyStr.is_empty (PyStr.strip line)); [exact H1|].
  destruct (handle_query_calls Runner_run (PyStr.strip line)
              (logged [EvInput input_prompt] st))
    as (evs & Hlog & _ & _ & Hnoprint & _).
  destruct (handle_query _ _ _) as [[e|r] st2]; simpl in *; rewrite Hlog.
  - intros [H|H]%in_app_or; [now apply H1 | now apply (Hnoprint farewell)].
  - intros [[H|H]%in_app_or|[H|[]]]%in_app_or;
      [now apply H1 | now apply (Hnoprint farewell) |].
    now apply (answer_line_not_farewell r), EvPrint_inj.
Qed.

Lemma loop_body_farewell console (st : State World) :
  ~ In (EvPrint farewell) (st_log st) ->
  match fst (loop_body Runner_run console st) with
  | Break =>
      exists evs,
        st_log (snd (loop_body Runner_run console st))
        = evs ++ [EvPrint farewell]
  | _ => ~ In (EvPrint farewell)
           (st_log (snd (loop_body Runner_run console st)))
  end.
Proof.
  intros Hno. pose proof (try_body_no_farewell console st Hno) as H1.
  rewrite loop_body_eq. cbv zeta.
  destruct (fst (try_body Runner_run console st)) as [[| msg | | cls msg]|u];
    simpl; try exact H1.
  - now eexists.
  - intros [H|[H|[]]]%in_app_or; [now apply H1|].
    now apply (error_line_not_farewell (Exception cls msg)), EvPrint_inj.
Qed.

Lemma while_true_farewell script : forall st : State World,
  ~ In (EvPrint farewell) (st_log st) ->
  match fst (while_true Runner_run script st) with
  | Returned =>
      exists evs,
        st_log (snd (while_true Runner_run script st))
        = evs ++ [EvPrint farewell]
  | _ => ~ In (EvPrint farewell)
           (st_log (snd (while_true Runner_run script st)))
  end.
Proof.
  induction script as [|console rest IH]; intros st Hno; simpl;
    [exact Hno|].
  pose proof (loop_body_farewell console st Hno) as Hstep.
  destruct (loop_body Runner_run console st) as [[| |e] st']; simpl in *;
    [now apply IH | exact Hstep ..].
Qed.

(** X5.  The farewell line tells how a session ended: it is in the log
    exactly when [run_loop] returned, it is then the last thing the session
    did, and a session that is still reading or was left by an exception
    never printed it. *)
Theorem farewell_iff_returned (script : list (exn + string)) (w : World) :
  let outcome := fst (run_loop Runner_run script w) in
  let log := st_log (snd (run_loop Runner_run script w)) in
  (outcome = Returned <-> In (EvPrint farewell) log) /\
  (outcome = Returned -> exists evs, log = evs ++ [EvPrint farewell]).
Proof.
  cbv zeta. unfold run_loop. cbv zeta.
  set (st0 := snd (print greeting (initial_state w))).
  assert (H0 : ~ In (EvPrint farewell) (st_log st0))
    by (simpl; intros [H|[]]; discriminate).
  pose proof (while_true_farewell script st0 H0) as H.
  destruct (fst (while_true Runner_run script st0)) as [| |e].
  - split; [split; [discriminate | contradiction] | discriminate].
  - destruct H as [evs Hevs]. split; [|now exists evs].
    split; [|reflexivity]. intros _. rewrite Hevs.
    apply in_or_app. right. now left.
  - split; [split; [discriminate | contradiction] | discriminate].
Qed.

(** A property of single events that the prompt, the printed lines and the
    events of a query have holds of the whole log of the loop. *)
Lemma while_true_log_Forall (P : Event -> Prop) :
  (forall text, P (EvPrint text)) ->
  (forall text, P (EvInput text)) ->
  (forall line (st : State World),
      PyStr.all_space line = false ->
      Forall P (st_log st) ->
      Forall P (st_log (snd (handle_query Runner_run (PyStr.strip line)
                               st)))) ->
  forall script (st : State World),
    Forall P (st_log st) ->
    Forall P (st_log (snd (while_true Runner_run script st))).
Proof.
  intros Hprint Hinput Hquery.
  assert (Hlogged : forall evs (st : State World),
             Forall P (st_log st) -> Forall P evs ->
             Forall P (st_log (logged evs st))).
  { intros evs st H1 H2. simpl. apply Forall_app. now split. }
  assert (Htry : forall console (st : State World),
             Forall P (st_log st) ->
             Forall P (st_log (snd (try_body Runner_run console st)))).
  { intros console st H. rewrite try_body_eq. cbv zeta.
    assert (H1 : Forall P (st_log (logged [EvInput input_prompt] st)))
      by (apply Hlogged; [exact H | repeat constructor; apply Hinput]).
    destruct console as [e|line]; [exact H1|].
    destruct (PyStr.is_empty (PyStr.strip line)) eqn:E; [exact H1|].
    assert (Hsolid : PyStr.all_space line = false).
    { destruct (PyStr.all_space line) eqn:A; [|reflexivity].
      rewrite (strip_all_space line A) in E. discriminate. }
    pose proof (Hquery line _ Hsolid H1) as H2.
    destruct (handle_query _ _ _) as [[e|r] st2]; simpl in H2 |- *;
      [exact H2|].
    apply Forall_app. split; [exact H2 | repeat constructor; apply Hprint]. }
  assert (Hbody : forall console (st : State World),
             Forall P (st_log st) ->
             Forall P (st_log (snd (loop_body Runner_run console st)))).
  { intros console st H. pose proof (Htry console st H) as H1.
    rewrite loop_body_eq. cbv zeta.
    destruct (fst (try_body Runner_run console st)) as [[| msg | | cls msg]|u];
      simpl; try exact H1;
      (apply Forall_app; split; [exact H1 | repeat constructor; apply Hprint]). }
  induction script as [|console rest IH]; intros st H; simpl; [exact H|].
  pose proof (Hbody console st H) as Hstep.
  destruct (loop_body Runner_run console st) as [[| |e] st']; simpl in *;
    [now apply IH | exact Hstep ..].
Qed.

(** X3.  In a session of [run_loop] no tool is ever held back: every backend
    call, at any point of any session, is offered exactly the tools its
    agent was built with.  The user is premium throughout, and the issue
    type is "technical" whenever the technical agent is called. *)
Theorem session_offers_all_tools
  (script : list (exn + string)) (w : World) :
  forall a p c offered,
    In (EvRun a p c offered) (st_log (snd (run_loop Runner_run script w))) ->
    offered = tools a.
Proof.
  intros a p c offered Hin.
  destruct (run_loop_inv Runner_run script w) as [_ _ _ Hruns _].
  destruct (Hruns a p c offered Hin) as [_ Hpremium].
  set (P := fun e =>
    match e with
    | EvRun a _ c offered => is_premium_user c = true -> offered = tools a
    | _ => True
    end).
  assert (HP : Forall P (st_log (snd (run_loop Runner_run script w)))).
  { unfold run_loop. cbv zeta.
    apply while_true_log_Forall; try (intros; exact I).
    - intros line st _ H.
      destruct (handle_query_calls Runner_run (PyStr.strip line) st)
        as (evs & -> & _ & _ & _ & (more & -> & _) & Hall).
      apply Forall_app. split; [exact H|].
      apply List.Forall_forall. intros [| |a' p' c' off'|] Hev; try exact I.
      simpl. intros Hprem.
      destruct (Hall a' p' c' off' Hev) as (_ & Hc & Hnone & Htech & Hbill).
      rewrite Hprem in Hc.
      destruct a'; [now apply Hnone; left | | now apply Htech
                   | now apply Hnone; right].
      rewrite (Hbill eq_refl), <- Hc. reflexivity.
    - simpl. repeat constructor. }
  rewrite List.Forall_forall in HP. exact (HP _ Hin Hpremium).
Qed.

Lemma turn_counts c evs c' :
  turn c evs c' ->
  length (List.filter is_run evs) <= 2 /\
  length (List.filter is_assignment evs) <= 1.
Proof.
  intros [|evs0 c0 [prompt|prompt category a Ha]]; simpl; lia.
Qed.

Lemma prints_count_nothing evs :
  at_most_one_print evs ->
  List.filter is_run evs = [] /\ List.filter is_assignment evs = [].
Proof. intros [->|[t ->]]; now split. Qed.

Lemma loop_body_counts console (st : State World) :
  let st' := snd (loop_body Runner_run console st) in
  length (List.filter is_run (st_log st'))
  <= length (List.filter is_run (st_log st)) + 2 /\
  length (List.filter is_assignment (st_log st'))
  <= length (List.filter is_assignment (st_log st)) + 1.
Proof.
  cbv zeta.
  destruct (loop_body_events Runner_run console st)
    as (evs & tail & -> & Hturn & Htail).
  apply turn_counts in Hturn as [Hr Ha].
  apply prints_count_nothing in Htail as [Hr' Ha'].
  rewrite !List.filter_app, Hr', Ha', !length_app. simpl. lia.
Qed.

Lemma while_true_counts script : forall st : State World,
  let st' := snd (while_true Runner_run script st) in
  length (List.filter is_run (st_log st'))
  <= length (List.filter is_run (st_log st)) + 2 * length script /\
  length (List.filter is_assignment (st_log st'))
  <= length (List.filter is_assignment (st_log st)) + length script.
Proof.
  induction script as [|console rest IH]; intros st; simpl; [lia|].
  pose proof (loop_body_counts console st) as Hstep. cbv zeta in Hstep.
  destruct (loop_body Runner_run console st) as [[| |e] st']; simpl in *;
    [specialize (IH st'); cbv zeta in IH; lia | lia ..].
Qed.

(** X11.  A session costs at most two backend calls and one assignment to
    the context per line of console input: over a script of [n] lines the
    log holds at most [2 * n] calls and at most [n] assignments. *)
Theorem session_call_bound (script : list (exn + string)) (w : World) :
  let log := st_log (snd (run_loop Runner_run script w)) in
  length (List.filter is_run log) <= 2 * length script /\
  length (List.filter is_assignment log) <= length script.
Proof.
  cbv zeta. unfold run_loop. cbv zeta.
  pose proof (while_true_counts script
                (snd (print greeting (initial_state w)))) as H.
  cbv zeta in H. simpl in H. simpl. lia.
Qed.

Lemma logged_nil (st : State World) : logged [] st = st.
Proof. destruct st. unfold logged. simpl. now rewrite app_nil_r. Qed.

(** X13.  A console that fails on every read with an instance of
    [Exception], as a closed standard input does with [EOFError], does not
    end the session: after any number of such reads the loop is still asking
    for input, the backend was never called, the context is unchanged, and
    each read left the prompt and one error line behind. *)
Theorem input_failures_keep_session_alive
  (n : nat) (cls msg : string) (st : State World) :
  while_true Runner_run (List.repeat (inl (Exception cls msg)) n) st
  = (AwaitingInput,
     logged
       (concat (List.repeat
          [EvInput input_prompt;
           EvPrint (error_line (Exception cls msg))] n))
       st).
Proof.
  revert st. induction n as [|n IH]; intros st.
  - simpl. now rewrite logged_nil.
  - cbn [List.repeat while_true concat].
    rewrite loop_body_eq, try_body_eq. cbv zeta. cbn [fst snd].
    rewrite IH, !logged_logged. reflexivity.
Qed.

Lemma while_true_log_extends script : forall st : State World,
  exists evs,
    st_log (snd (while_true Runner_run script st)) = st_log st ++ evs.
Proof.
  induction script as [|console rest IH]; intros st; simpl.
  - exists []. now rewrite app_nil_r.
  - destruct (loop_body_events Runner_run console st)
      as (evs & tail & Hlog & _ & _).
    destruct (loop_body Runner_run console st) as [[| |e] st']; simpl in *;
      try (eexists; exact Hlog).
    destruct (IH st') as (evs' & ->). rewrite Hlog.
    eexists. now rewrite <- app_assoc.
Qed.

(** X6.  The start-up check lets exactly the non-empty keys through: the
    module raises [ValueError] when [GEMINI_API_KEY] is missing from the
    environment read after [load_dotenv()] and also when it is the empty
    string, and in no other case.  With a non-empty key the program is the
    session loop, whose first action is to print the greeting. *)
Theorem startup_accepts_exactly_nonempty_keys
  (environ : gmap string string) (script : list (exn + string)) (w : World) :
  (configure load_dotenv environ
   = inl (Exception "ValueError" "GEMINI_API_KEY is not set.") <->
   load_dotenv environ !! "GEMINI_API_KEY" = None \/
   load_dotenv environ !! "GEMINI_API_KEY" = Some EmptyString) /\
  (forall key,
      load_dotenv environ !! "GEMINI_API_KEY" = Some key ->
      key <> EmptyString ->
      configure load_dotenv environ = inr key /\
      main Runner_run load_dotenv environ script w
      = (fst (run_loop Runner_run script w),
         st_log (snd (run_loop Runner_run script w))) /\
      exists evs,
        st_log (snd (run_loop Runner_run script w)) = EvPrint greeting :: evs).
Proof.
  unfold main, configure, os_getenv. split.
  - destruct (load_dotenv environ !! "GEMINI_API_KEY") as [[|ch key]|]; simpl.
    + split; [now right | reflexivity].
    + split; [discriminate | intros [H|H]; discriminate].
    + split; [now left | reflexivity].
  - intros key -> Hkey. destruct key as [|ch key]; [contradiction|]. simpl.
    split; [reflexivity|]. split.
    + now destruct (run_loop Runner_run script w).
    + unfold run_loop. cbv zeta.
      destruct (while_true_log_extends script
                  (snd (print greeting (initial_state w)))) as (evs & ->).
      now exists evs.
Qed.

(** X10.  The issue type outlives the query that set it.  After a query
    whose triage answered [out], the triage call of the next query is made
    on a context whose issue type is still the normal form of [out]; and
    when that triage call raises, the issue type stays so. *)
Theorem issue_type_carries_over
  (p1 p2 : string) (st : State World) (out : string) (w1 : World)
  (Htriage :
     Runner_run triage_agent p1 (st_context st) [] (st_world st)
     = (inr out, w1)) :
  let st1 := snd (handle_query Runner_run p1 st) in
  (exists c1 more,
      st_log (snd (handle_query Runner_run p2 st1))
      = st_log st1 ++ EvRun triage_agent p2 c1 [] :: more /\
      issue_type c1 = Some (normalize out)) /\
  (forall e w2,
      Runner_run triage_agent p2 (st_context st1) [] (st_world st1)
      = (inl e, w2) ->
      issue_type (st_context (snd (handle_query Runner_run p2 st1)))
      = Some (normalize out)).
Proof.
  intros st1.
  assert (Hc : issue_type (st_context st1) = Some (normalize out)).
  { subst st1. rewrite handle_query_eq. cbv zeta. now rewrite Htriage. }
  split.
  - destruct (handle_query_calls Runner_run p2 st1)
      as (evs & -> & _ & _ & _ & (more & -> & _) & _).
    now exists (st_context st1), more.
  - intros e w2 H. rewrite (handle_query_eq Runner_run p2 st1). cbv zeta.
    now rewrite H.
Qed.

(** X14.  The backend never gets an empty or padded prompt: in every call
    of every session the prompt is non-empty and has no whitespace at either
    end. *)
Theorem session_prompts_are_stripped
  (script : list (exn + string)) (w : World) :
  forall a p c offered,
    In (EvRun a p c offered) (st_log (snd (run_loop Runner_run script w))) ->
    p <> EmptyString /\ PyStr.strip p = p.
Proof.
  intros a p c offered Hin.
  set (P := fun e =>
    match e with
    | EvRun _ p _ _ => p <> EmptyString /\ PyStr.strip p = p
    | _ => True
    end).
  assert (HP : Forall P (st_log (snd (run_loop Runner_run script w)))).
  { unfold run_loop. cbv zeta.
    apply while_true_log_Forall; try (intros; exact I).
    - intros line st Hsolid H.
      destruct (handle_query_calls Runner_run (PyStr.strip line) st)
        as (evs & -> & _ & _ & _ & _ & Hall).
      apply Forall_app. split; [exact H|].
      apply List.Forall_forall. intros [| |a' p' c' off'|] Hev; try exact I.
      destruct (Hall a' p' c' off' Hev) as (-> & _). simpl. split.
      + intros E. apply strip_empty_iff in E. congruence.
      + apply strip_idem.
    - simpl. repeat constructor. }
  rewrite List.Forall_forall in HP. exact (HP _ Hin).
Qed.

Lemma same_but_prompts_logged evs (st st' : State World) :
  same_but_prompts st st' ->
  same_but_prompts (logged evs st) (logged evs st').
Proof.
  intros (Hc & Hw & Hl). unfold same_but_prompts. simpl.
  now rewrite !List.filter_app, Hl.
Qed.

Lemma same_but_prompts_trans (st1 st2 st3 : State World) :
  same_but_prompts st1 st2 -> same_but_prompts st2 st3 ->
  same_but_prompts st1 st3.
Proof.
  intros (Hc & Hw & Hl) (Hc' & Hw' & Hl'). unfold same_but_prompts.
  now rewrite Hc, Hw, Hl.
Qed.

Lemma handle_query_same_but_prompts prompt (st st' : State World) :
  same_but_prompts st st' ->
  fst (handle_query Runner_run prompt st)
  = fst (handle_query Runner_run prompt st') /\
  same_but_prompts (snd (handle_query Runner_run prompt st))
    (snd (handle_query Runner_run prompt st')).
Proof.
  intros (Hc & Hw & Hl). rewrite !handle_query_eq. cbv zeta.
  rewrite <- Hc, <- Hw.
  destruct (Runner_run triage_agent _ _ _ _) as [[e|out] w1]; simpl;
    (split; [reflexivity|]); unfold same_but_prompts; simpl;
    now rewrite !List.filter_app, Hl.
Qed.

Lemma try_body_same_but_prompts console (st st' : State World) :
  same_but_prompts st st' ->
  fst (try_body Runner_run console st)
  = fst (try_body Runner_run console st') /\
  same_but_prompts (snd (try_body Runner_run console st))
    (snd (try_body Runner_run console st')).
Proof.
  intros H. rewrite !try_body_eq. cbv zeta.
  pose proof (same_but_prompts_logged [EvInput input_prompt] st st' H) as H1.
  destruct console as [e|line]; [now split|].
  destruct (PyStr.is_empty (PyStr.strip line)); [now split|].
  destruct (handle_query_same_but_prompts (PyStr.strip line) _ _ H1)
    as [Hr Hs].
  destruct (handle_query Runner_run _ (logged _ st)) as [r st2].
  destruct (handle_query Runner_run _ (logged _ st')) as [r' st2'].
  simpl in Hr, Hs. subst r'. destruct r as [e|r]; simpl; [now split|].
  split; [reflexivity|]. now apply same_but_prompts_logged.
Qed.

Lemma loop_body_same_but_prompts console (st st' : State World) :
  same_but_prompts st st' ->
  fst (loop_body Runner_run console st)
  = fst (loop_body Runner_run console st') /\
  same_but_prompts (snd (loop_body Runner_run console st))
    (snd (loop_body Runner_run console st')).
Proof.
  intros H. rewrite !loop_body_eq. cbv zeta.
  destruct (try_body_same_but_prompts console st st' H) as [Hr Hs].
  rewrite <- Hr.
  destruct (fst (try_body Runner_run console st)) as [[| msg | | cls msg]|u];
    simpl; (split; [reflexivity|]);
    first [exact Hs | now apply same_but_prompts_logged].
Qed.

Lemma while_true_same_but_prompts script : forall st st' : State World,
  same_but_prompts st st' ->
  fst (while_true Runner_run script st)
  = fst (while_true Runner_run script st') /\
  same_but_prompts (snd (while_true Runner_run script st))
    (snd (while_true Runner_run script st')).
Proof.
  induction script as [|console rest IH]; intros st st' H; simpl;
    [now split|].
  destruct (loop_body_same_but_prompts console st st' H) as [Hr Hs].
  destruct (loop_body Runner_run console st) as [ctl st1].
  destruct (loop_body Runner_run console st') as [ctl' st1'].
  simpl in Hr, Hs. subst ctl'.
  destruct ctl as [| |e]; [now apply IH | now split ..].
Qed.

Lemma blank_line_turn line (st : State World) :
  PyStr.all_space line = true ->
  loop_body Runner_run (inr line) st
  = (Continue, logged [EvInput input_prompt] st).
Proof.
  intros Hblank. rewrite loop_body_eq, try_body_eq. cbv zeta.
  now rewrite (strip_all_space line Hblank).
Qed.

(** X15.  Blank lines leave no trace but the prompt.  A session run on a
    script and the session run on the same script without its
    whitespace-only lines end the same way, with the same context and the
    same backend state, and their logs agree once the prompts shown are set
    aside: the same calls, assignments and printed lines in the same
    order. *)
Theorem blank_lines_are_invisible
  (script : list (exn + string)) (st : State World) :
  let trimmed := List.filter (fun c => negb (is_blank_line c)) script in
  fst (while_true Runner_run script st)
  = fst (while_true Runner_run trimmed st) /\
  same_but_prompts (snd (while_true Runner_run script st))
    (snd (while_true Runner_run trimmed st)).
Proof.
  cbv zeta. revert st.
  induction script as [|console rest IH]; intros st.
  - simpl. now split.
  - cbn [List.filter].
    destruct (is_blank_line console) eqn:Hblank; cbn [negb].
    + destruct console as [e|line]; [discriminate|]. simpl in Hblank.
      cbn [while_true]. rewrite (blank_line_turn line st Hblank).
      destruct (IH (logged [EvInput input_prompt] st)) as [Ho Hs].
      assert (Hst : same_but_prompts (logged [EvInput input_prompt] st) st).
      { unfold same_but_prompts. simpl.
        rewrite List.filter_app. simpl. now rewrite app_nil_r. }
      destruct (while_true_same_but_prompts
                  (List.filter (fun c => negb (is_blank_line c)) rest)
                  _ _ Hst) as [Ho' Hs'].
      split; [now rewrite Ho | now apply (same_but_prompts_trans _ _ _ Hs)].
    + cbn [while_true].
      destruct (loop_body Runner_run console st) as [[| |e] st1];
        [now apply IH | now split ..].
Qed.

End FurtherSession.

(** ** The further theorems with a premise, applied to sample runs *)

Lemma normalize_ignores_padding_witness :
  normalize (" " ++ "Billing" ++ "  ")%string = normalize "Billing".
Proof.
  exact (normalize_ignores_padding " " "Billing" "  " eq_refl eq_refl).
Defined.

(** A time-out during triage leaves the issue type of an earlier query in
    place. *)
Lemma handle_query_triage_failure_witness :
  handle_query
    (Sample.backend (inl (Exception "APITimeoutError" "Request timed out."))
       (inr "unused"))
    "hello" (Sample.start (with_issue_type Sample.free_user "billing"))
  = (inl (Exception "APITimeoutError" "Request timed out."),
     {| st_context := with_issue_type Sample.free_user "billing";
        st_world := 1;
        st_log :=
          [EvRun triage_agent "hello"
             (with_issue_type Sample.free_user "billing") []] |}).
Proof.
  exact (handle_query_triage_failure
           (Sample.backend
              (inl (Exception "APITimeoutError" "Request timed out."))
              (inr "unused"))
           "hello" (Sample.start (with_issue_type Sample.free_user "billing"))
           (Exception "APITimeoutError" "Request timed out.") 1 eq_refl).
Defined.

Lemma session_offers_all_tools_witness :
  [restart_service_tool] = tools tech_agent.
Proof.
  apply (session_offers_all_tools
           (Sample.backend (inr "technical") (inr "Restarted."))
           [inr "my router is down"] 0
           tech_agent "my router is down"
           (with_issue_type Sample.premium_user "technical")
           [restart_service_tool]).
  vm_compute. do 4 right. left. reflexivity.
Defined.

Lemma nonblank_line_is_routed_witness :
  exists rest,
    st_log (snd (loop_body
      (Sample.backend (inr "general") (inr "Hi!"))
      (inr "  hi  ") (Sample.start Sample.premium_user)))
    = [EvInput input_prompt;
       EvRun triage_agent "hi" Sample.premium_user []] ++ rest /\
    forall a p c offered,
      In (EvRun a p c offered) rest -> p = "hi" /\ a <> triage_agent.
Proof.
  exact (nonblank_line_is_routed
           (Sample.backend (inr "general") (inr "Hi!"))
           "  hi  " (Sample.start Sample.premium_user) eq_refl).
Defined.

Lemma turn_prints_responder_answer_witness :
  loop_body (Sample.backend (inr " Billing") (inr "Refund done."))
    (inr " refund please ") (Sample.start Sample.premium_user)
  = (Continue,
     {| st_context := with_issue_type Sample.premium_user "billing";
        st_world := 2;
        st_log :=
          [EvInput input_prompt;
           EvRun triage_agent "refund please" Sample.premium_user [];
           EvSetAttr "issue_type" (VStr "billing");
           EvRun billing_agent "refund please"
             (with_issue_type Sample.premium_user "billing") [refund_tool];
           EvPrint (PyStr.LF ++ "AI Bot: Refund done.")%string] |}).
Proof.
  exact (turn_prints_responder_answer
           (Sample.backend (inr " Billing") (inr "Refund done."))
           " refund please " " Billing" "Refund done."
           (Sample.start Sample.premium_user) 1 2 eq_refl eq_refl eq_refl).
Defined.

(** A technical query, then a query whose triage fails: the issue type is
    still "technical". *)
Lemma issue_type_carries_over_witness :
  issue_type (st_context (snd (handle_query Script.backend "are you there?"
    (snd (handle_query Script.backend "my router is down"
       (Script.start Sample.free_user
          [inr "Technical"; inr "Restarted.";
           inl (Exception "APIConnectionError" "Connection error.")]))))))
  = Some "technical".
Proof.
  exact (proj2
    (issue_type_carries_over Script.backend
       "my router is down" "are you there?"
       (Script.start Sample.free_user
          [inr "Technical"; inr "Restarted.";
           inl (Exception "APIConnectionError" "Connection error.")])
       "Technical"
       [inr "Restarted.";
        inl (Exception "APIConnectionError" "Connection error.")]
       eq_refl)
    (Exception "APIConnectionError" "Connection error.") [] eq_refl).
Defined.

Lemma session_prompts_are_stripped_witness :
  "hi" <> EmptyString /\ PyStr.strip "hi" = "hi".
Proof.
  apply (session_prompts_are_stripped
           (Sample.backend (inr "general") (inr "Hi!"))
           [inr "  hi  "] 0
           triage_agent "hi" Sample.premium_user []).
  vm_compute. do 2 right. left. reflexivity.
Defined.
